(** * BillingIntegration: reconciliation sweeps and transaction guards

    Shallow embedding of [src/integration/billing/BillingIntegration.ts].

    - JavaScript values that the code tests for truthiness are options
      (objects) or option strings (identifiers); [truthy] spells the test out.
    - A thrown exception is a value of [error]; [BackendError] is the
      precondition error the guards build, [TypeError] is what the runtime
      raises when a property is read from [undefined] or [null].
    - Asynchronous methods are functions in the monad [M]: a world goes in,
      a result (or the exception) and the world as it is at that point come
      out.  State written before a throw stays written.
    - The billing provider is the record [BillingProvider] of the abstract
      methods, over a provider state of any type; the calls made to it are
      recorded in the world, in order, with their outcome.
    - The storage classes are in-memory lists whose operations always
      return; the tenant's billing settings exist.  Logging and
      notifications have no part in the results and are left out. *)

From Stdlib Require Import String List Bool Arith ZArith Lia Permutation.
Import ListNotations.
Open Scope string_scope.

(** ** Errors *)

Inductive error : Type :=
| BackendError (message : string)
| TypeError (message : string)
| ProviderError (message : string).

Definition Res (A : Type) : Type := (error + A)%type.

Definition isBackendError {A} (r : Res A) : bool :=
  match r with inl (BackendError _) => true | _ => false end.

Definition isOk {A} (r : Res A) : bool :=
  match r with inr _ => true | inl _ => false end.

(** ** Data model *)

(** [!!s] for a string-valued property that may be missing. *)
Definition truthy (s : option string) : bool :=
  match s with
  | Some v => negb (v =? "")
  | None => false
  end.

Definition present {A} (o : option A) : bool :=
  match o with Some _ => true | None => false end.

Inductive UserStatus := PENDING | ACTIVE | DELETED | INACTIVE | BLOCKED | LOCKED.

Definition UserStatus_eqb (a b : UserStatus) : bool :=
  match a, b with
  | PENDING, PENDING | ACTIVE, ACTIVE | DELETED, DELETED
  | INACTIVE, INACTIVE | BLOCKED, BLOCKED | LOCKED, LOCKED => true
  | _, _ => false
  end.

(** [user.billingData] *)
Record BillingUserData := mkBillingUserData {
  customerID : option string;
  hasSynchroError : bool;
  invoicesLastSynchronizedOn : option Z
}.

Record User := mkUser {
  user_id : string;
  email : string;
  status : UserStatus;
  billingData : option BillingUserData
}.

(** The provider's projection of a customer. *)
Record BillingUser := mkBillingUser {
  bu_email : string;
  bu_billingData : option BillingUserData
}.

Record ChargingStation := mkChargingStation { cs_id : string }.

(** [transaction.billingData] *)
Record TransactionBillingData := mkTransactionBillingData {
  invoiceID : option string
}.

Record Transaction := mkTransaction {
  tx_userID : option string;
  tx_user : option User;
  tx_chargeBox : option ChargingStation;
  tx_billingData : option TransactionBillingData
}.

(** ** Transaction guards *)

Module Guard.

(** [checkStopTransaction].  The third test is
    [transaction?.billingData.invoiceID]: the optional chain guards
    [transaction], and [.invoiceID] is then read from [billingData]
    whatever it is. *)
Definition checkStopTransaction (transaction : Transaction) : Res unit :=
  if negb (truthy (tx_userID transaction)) || negb (present (tx_user transaction)) then
    inl (BackendError "User is not provided")
  else if negb (present (tx_chargeBox transaction)) then
    inl (BackendError "Charging Station is not provided")
  else
    match tx_billingData transaction with
    | None => inl (TypeError "Cannot read properties of undefined (reading 'invoiceID')")
    | Some bd =>
        if truthy (invoiceID bd) then
          inl (BackendError "Transaction has already billing data")
        else
          match tx_user transaction with
          | None => inl (TypeError "Cannot read properties of undefined (reading 'billingData')")
          | Some u =>
              if negb (present (billingData u)) then
                inl (BackendError "User has no Billing Data")
              else inr tt
          end
    end.

(** [checkStartTransaction] *)
Definition checkStartTransaction (transaction : Transaction) : Res unit :=
  if negb (truthy (tx_userID transaction)) || negb (present (tx_user transaction)) then
    inl (BackendError "User is not provided")
  else
    match tx_user transaction with
    | None => inl (TypeError "Cannot read properties of undefined (reading 'billingData')")
    | Some billingUser =>
        match billingData billingUser with
        | None => inl (BackendError "Transaction user has no billing method or no customer in Stripe")
        | Some bd =>
            if negb (truthy (customerID bd)) then
              inl (BackendError "Transaction user has no billing method or no customer in Stripe")
            else inr tt
        end
    end.

(** The four conditions under which a stop is refused. *)
Definition noUser (t : Transaction) : bool :=
  negb (truthy (tx_userID t)) || negb (present (tx_user t)).

Definition noChargingStation (t : Transaction) : bool :=
  negb (present (tx_chargeBox t)).

Definition alreadyInvoiced (t : Transaction) : bool :=
  match tx_billingData t with
  | Some bd => truthy (invoiceID bd)
  | None => false
  end.

Definition userLacksBillingData (t : Transaction) : bool :=
  match tx_user t with
  | Some u => negb (present (billingData u))
  | None => false
  end.

Definition stopRefused (t : Transaction) : bool :=
  noUser t || noChargingStation t || alreadyInvoiced t || userLacksBillingData t.

End Guard.

(** ** Invoices, settings and tallies *)

Inductive BillingInvoiceStatus := PAID | OPEN | DRAFT.

Definition isOpen (s : BillingInvoiceStatus) : bool :=
  match s with OPEN => true | _ => false end.

(** A local or provider-side invoice.  [inv_id] is the local (database)
    identifier, absent on an invoice that comes from the provider and was
    never saved; [billingInvoiceID] is the provider's key. *)
Record BillingInvoice := mkBillingInvoice {
  inv_id : option N;
  billingInvoiceID : string;
  inv_customerID : string;
  inv_userID : option string;
  inv_user : option User;
  inv_status : BillingInvoiceStatus;
  nbrOfItems : Z;
  downloadable : bool
}.

Record BillingInvoiceDocument := mkBillingInvoiceDocument {
  doc_invoiceID : option N;
  doc_content : string
}.

(** [billingSettings.stripe] *)
Record BillingSettings := mkBillingSettings {
  usersLastSynchronizedOn : option Z;
  invoicesLastSynchronizedOn_global : option Z
}.

(** [BillingUserSynchronizeAction] and [BillingChargeInvoiceAction] *)
Record ActionsDone := mkActionsDone {
  inSuccess : nat;
  inError : nat
}.

Definition incSuccess (a : ActionsDone) : ActionsDone :=
  {| inSuccess := S (inSuccess a); inError := inError a |}.

Definition incError (a : ActionsDone) : ActionsDone :=
  {| inSuccess := inSuccess a; inError := S (inError a) |}.

(** ** Storage *)

Record Storage := mkStorage {
  users : list User;
  invoices : list BillingInvoice;
  invoiceDocuments : list BillingInvoiceDocument;
  billingSettings : BillingSettings;
  nextInvoiceID : N
}.

Record DataResult (A : Type) := mkDataResult {
  count : Z;
  result : list A
}.
Arguments count {A} _.
Arguments result {A} _.
Arguments mkDataResult {A} _ _.

Module UserStorage.

Definition inBillingError (u : User) : bool :=
  match billingData u with
  | Some bd => hasSynchroError bd
  | None => false
  end.

(** Modelled from the spec: [UserStorage.getUsersInError] with error type
    [FAILED_BILLING_SYNCHRO] is not under src/; it returns the local users
    flagged as being in a billing-sync error state. *)
Definition getUsersInError (s : Storage) : DataResult User :=
  let r := filter inBillingError (users s) in
  mkDataResult (Z.of_nat (length r)) r.

Fixpoint insertByID (u : User) (l : list User) : list User :=
  match l with
  | [] => [u]
  | v :: l' => if String.leb (user_id u) (user_id v) then u :: l else v :: insertByID u l'
  end.

Definition sortByID (l : list User) : list User :=
  fold_right insertByID [] l.

Definition notSynchronizedBillingData (u : User) : bool :=
  match billingData u with
  | Some bd => negb (present (customerID bd))
  | None => true
  end.

(** Modelled from the spec: [UserStorage.getUsers] is not under src/; with
    the filter used by the sweep it returns the active users whose billing
    data has never been synchronized, ordered by user identifier. *)
Definition getUsers (s : Storage) : DataResult User :=
  let r := sortByID (filter (fun u => UserStatus_eqb (status u) ACTIVE
                                      && notSynchronizedBillingData u) (users s)) in
  mkDataResult (Z.of_nat (length r)) r.

Definition hasBillingID (id : string) (u : User) : bool :=
  match billingData u with
  | Some bd => match customerID bd with Some c => c =? id | None => false end
  | None => false
  end.

(** Modelled from the spec: [UserStorage.getUserByBillingID] is not under
    src/; it looks a user up by provider identity. *)
Definition getUserByBillingID (s : Storage) (id : string) : option User :=
  find (hasBillingID id) (users s).

(** Modelled from the spec: [UserStorage.saveUserBillingData] is not under
    src/; it writes the billing data of the user with the given id. *)
Definition saveUserBillingData (s : Storage) (id : string) (bd : option BillingUserData) : Storage :=
  {| users := map (fun u => if user_id u =? id
                            then {| user_id := user_id u; email := email u;
                                    status := status u; billingData := bd |}
                            else u) (users s);
     invoices := invoices s;
     invoiceDocuments := invoiceDocuments s;
     billingSettings := billingSettings s;
     nextInvoiceID := nextInvoiceID s |}.

End UserStorage.

Module BillingStorage.

Definition hasBillingInvoiceID (id : string) (i : BillingInvoice) : bool :=
  billingInvoiceID i =? id.

(** Modelled from the spec: [BillingStorage.getInvoiceByBillingInvoiceID]
    is not under src/; it looks a local invoice up by the provider's key. *)
Definition getInvoiceByBillingInvoiceID (s : Storage) (id : string) : option BillingInvoice :=
  find (hasBillingInvoiceID id) (invoices s).

(** Modelled from the spec: [BillingStorage.deleteInvoiceByInvoiceID] is
    not under src/; it deletes the local invoice with that provider key. *)
Definition deleteInvoiceByInvoiceID (s : Storage) (id : string) : Storage :=
  {| users := users s;
     invoices := filter (fun i => negb (hasBillingInvoiceID id i)) (invoices s);
     invoiceDocuments := invoiceDocuments s;
     billingSettings := billingSettings s;
     nextInvoiceID := nextInvoiceID s |}.

Definition hasID (n : N) (i : BillingInvoice) : bool :=
  match inv_id i with Some m => N.eqb m n | None => false end.

Definition withID (i : BillingInvoice) (n : N) : BillingInvoice :=
  {| inv_id := Some n; billingInvoiceID := billingInvoiceID i;
     inv_customerID := inv_customerID i; inv_userID := inv_userID i;
     inv_user := inv_user i; inv_status := inv_status i;
     nbrOfItems := nbrOfItems i; downloadable := downloadable i |}.

(** Modelled from the spec: [BillingStorage.saveInvoice] is not under
    src/; it is an upsert on the local identifier that returns that
    identifier: an invoice that carries one overwrites the record stored
    under it, an invoice without one is stored under a fresh one. *)
Definition saveInvoice (s : Storage) (i : BillingInvoice) : N * Storage :=
  match inv_id i with
  | Some n =>
      (n, {| users := users s;
             invoices := if existsb (hasID n) (invoices s)
                         then map (fun j => if hasID n j then i else j) (invoices s)
                         else invoices s ++ [i];
             invoiceDocuments := invoiceDocuments s;
             billingSettings := billingSettings s;
             nextInvoiceID := nextInvoiceID s |})
  | None =>
      let n := nextInvoiceID s in
      (n, {| users := users s;
             invoices := invoices s ++ [withID i n];
             invoiceDocuments := invoiceDocuments s;
             billingSettings := billingSettings s;
             nextInvoiceID := N.succ n |})
  end.

(** Modelled from the spec: [BillingStorage.saveInvoiceDocument] is not
    under src/; it persists the document. *)
Definition saveInvoiceDocument (s : Storage) (d : BillingInvoiceDocument) : Storage :=
  {| users := users s;
     invoices := invoices s;
     invoiceDocuments := invoiceDocuments s ++ [d];
     billingSettings := billingSettings s;
     nextInvoiceID := nextInvoiceID s |}.

(** Modelled from the spec: [BillingStorage.getInvoicesToPay] is not under
    src/; it returns the invoices in a payable (open) state, in stored
    order. *)
Definition getInvoicesToPay (s : Storage) : DataResult BillingInvoice :=
  let r := filter (fun i => isOpen (inv_status i)) (invoices s) in
  mkDataResult (Z.of_nat (length r)) r.

End BillingStorage.

Module SettingStorage.

Definition getBillingSettings (s : Storage) : BillingSettings := billingSettings s.

Definition saveBillingSettings (s : Storage) (b : BillingSettings) : Storage :=
  {| users := users s;
     invoices := invoices s;
     invoiceDocuments := invoiceDocuments s;
     billingSettings := b;
     nextInvoiceID := nextInvoiceID s |}.

End SettingStorage.

(** ** The provider contract

    The abstract methods of [BillingIntegration].  Each one runs against
    the provider's own state [P], may throw, and may change that state. *)

Record BillingProvider (P : Type) := mkBillingProvider {
  checkConnection : P -> Res unit * P;
  getUpdatedUserIDsInBilling : P -> Res (list string) * P;
  getUser : string -> P -> Res (option BillingUser) * P;
  getUserByEmail : string -> P -> Res (option BillingUser) * P;
  createUser : User -> P -> Res BillingUser * P;
  updateUser : User -> P -> Res BillingUser * P;
  userExists : User -> P -> Res bool * P;
  getInvoice : string -> P -> Res (option BillingInvoice) * P;
  getUpdatedInvoiceIDsInBilling : option BillingUser -> P -> Res (option (list string)) * P;
  downloadInvoiceDocument : BillingInvoice -> P -> Res (option BillingInvoiceDocument) * P;
  chargeInvoice : BillingInvoice -> P -> Res unit * P
}.
Arguments checkConnection {P} _ _.
Arguments getUpdatedUserIDsInBilling {P} _ _.
Arguments getUser {P} _ _ _.
Arguments getUserByEmail {P} _ _ _.
Arguments createUser {P} _ _ _.
Arguments updateUser {P} _ _ _.
Arguments userExists {P} _ _ _.
Arguments getInvoice {P} _ _ _.
Arguments getUpdatedInvoiceIDsInBilling {P} _ _ _.
Arguments downloadInvoiceDocument {P} _ _ _.
Arguments chargeInvoice {P} _ _ _.

(** The provider calls a run makes, in the order it makes them. *)
Inductive Op :=
| OpCheckConnection
| OpGetUpdatedUserIDsInBilling
| OpGetUser (id : string)
| OpGetUserByEmail (mail : string)
| OpCreateUser (userID : string)
| OpUpdateUser (userID : string)
| OpUserExists (userID : string)
| OpGetInvoice (id : string)
| OpGetUpdatedInvoiceIDsInBilling (scoped : bool)
| OpDownloadInvoiceDocument (id : string)
| OpChargeInvoice (id : string).

Record Call := mkCall {
  op : Op;
  succeeded : bool
}.

(** ** Worlds and the monad of the asynchronous methods *)

Record World (P : Type) := mkWorld {
  storage : Storage;
  provider : P;
  clock : Z;
  calls : list Call
}.
Arguments storage {P} _.
Arguments provider {P} _.
Arguments clock {P} _.
Arguments calls {P} _.
Arguments mkWorld {P} _ _ _ _.

Definition M (P A : Type) : Type := World P -> Res A * World P.

Definition ret {P A} (a : A) : M P A := fun w => (inr a, w).

Definition throw {P A} (e : error) : M P A := fun w => (inl e, w).

Definition bind {P A B} (m : M P A) (k : A -> M P B) : M P B :=
  fun w =>
    match m w with
    | (inr a, w') => k a w'
    | (inl e, w') => (inl e, w')
    end.

(** [try { m } catch (error) { ... }]: the outcome, never a throw. *)
Definition attempt {P A} (m : M P A) : M P (Res A) :=
  fun w => let (r, w') := m w in (inr r, w').

Notation "x <- m ;; k" := (bind m (fun x => k))
  (at level 61, m at next level, right associativity).
Notation "m ;;; k" := (bind m (fun _ => k))
  (at level 61, right associativity).

(** A call of an abstract method: the provider state moves on and the
    call is recorded with its outcome. *)
Definition call {P A} (o : Op) (f : P -> Res A * P) : M P A :=
  fun w =>
    let (r, p') := f (provider w) in
    (r, mkWorld (storage w) p' (clock w) (calls w ++ [mkCall o (isOk r)])).

Definition readStorage {P A} (f : Storage -> A) : M P A :=
  fun w => (inr (f (storage w)), w).

Definition writeStorage {P} (f : Storage -> Storage) : M P unit :=
  fun w => (inr tt, mkWorld (f (storage w)) (provider w) (clock w) (calls w)).

(** [new Date()]: reads the clock; time has passed at the next reading. *)
Definition newDate {P} : M P Z :=
  fun w => (inr (clock w), mkWorld (storage w) (provider w) (clock w + 1) (calls w)).

Definition saveInvoiceM {P} (i : BillingInvoice) : M P N :=
  fun w =>
    let (n, s') := BillingStorage.saveInvoice (storage w) i in
    (inr n, mkWorld s' (provider w) (clock w) (calls w)).

(** ** The engine *)

Definition hasCustomerID (bd : option BillingUserData) : bool :=
  match bd with
  | Some d => truthy (customerID d)
  | None => false
  end.

Definition customerIDOf (bd : option BillingUserData) : option string :=
  match bd with
  | Some d => customerID d
  | None => None
  end.

Definition sameCustomerID (a b : option string) : bool :=
  match a, b with
  | Some x, Some y => x =? y
  | None, None => true
  | _, _ => false
  end.

Definition setSynchroError (bd : BillingUserData) : BillingUserData :=
  {| customerID := customerID bd; hasSynchroError := true;
     invoicesLastSynchronizedOn := invoicesLastSynchronizedOn bd |}.

Definition stampInvoiceSync (bd : BillingUserData) (now : Z) : BillingUserData :=
  {| customerID := customerID bd; hasSynchroError := hasSynchroError bd;
     invoicesLastSynchronizedOn := Some now |}.

Definition withBillingData (u : User) (bd : option BillingUserData) : User :=
  {| user_id := user_id u; email := email u; status := status u; billingData := bd |}.

Definition withUsersWatermark (b : BillingSettings) (now : Z) : BillingSettings :=
  {| usersLastSynchronizedOn := Some now;
     invoicesLastSynchronizedOn_global := invoicesLastSynchronizedOn_global b |}.

Definition withInvoicesWatermark (b : BillingSettings) (now : Z) : BillingSettings :=
  {| usersLastSynchronizedOn := usersLastSynchronizedOn b;
     invoicesLastSynchronizedOn_global := Some now |}.

(** [invoiceInBilling.id = invoice.id] *)
Definition carryID (i : BillingInvoice) (id : option N) : BillingInvoice :=
  {| inv_id := id; billingInvoiceID := billingInvoiceID i;
     inv_customerID := inv_customerID i; inv_userID := inv_userID i;
     inv_user := inv_user i; inv_status := inv_status i;
     nbrOfItems := nbrOfItems i; downloadable := downloadable i |}.

(** [invoiceInBilling.user = ...; .userID = ...; .downloadable = ...] *)
Definition setOwner (i : BillingInvoice) (u : User) (d : bool) : BillingInvoice :=
  {| inv_id := inv_id i; billingInvoiceID := billingInvoiceID i;
     inv_customerID := inv_customerID i; inv_userID := Some (user_id u);
     inv_user := Some u; inv_status := inv_status i;
     nbrOfItems := nbrOfItems i; downloadable := d |}.

Definition setDownloadable (i : BillingInvoice) (d : bool) : BillingInvoice :=
  {| inv_id := inv_id i; billingInvoiceID := billingInvoiceID i;
     inv_customerID := inv_customerID i; inv_userID := inv_userID i;
     inv_user := inv_user i; inv_status := inv_status i;
     nbrOfItems := nbrOfItems i; downloadable := d |}.

(** The test that guards the document download:
    [!invoice || !invoiceInBilling.downloadable ||
     (invoice.nbrOfItems !== invoiceInBilling.nbrOfItems)]. *)
Definition mustDownload (invoice : option BillingInvoice) (invoiceInBilling : BillingInvoice) : bool :=
  negb (present invoice)
  || negb (downloadable invoiceInBilling)
  || match invoice with
     | Some i => negb (Z.eqb (nbrOfItems i) (nbrOfItems invoiceInBilling))
     | None => false
     end.

Definition noActions : ActionsDone := {| inSuccess := 0; inError := 0 |}.

Section Engine.

Context {P : Type} (prov : BillingProvider P).

(** [synchronizeUser] *)
Definition synchronizeUser (user : User) : M P unit :=
  exists_ <- call (OpUserExists (user_id user)) (userExists prov user) ;;
  newUser <- (if negb exists_
              then call (OpCreateUser (user_id user)) (createUser prov user)
              else call (OpUpdateUser (user_id user)) (updateUser prov user)) ;;
  writeStorage (fun s => UserStorage.saveUserBillingData s (user_id user) (bu_billingData newUser)).

(** First loop of [synchronizeUsers]: the users never synchronized. *)
Fixpoint syncNewUsers (l : list User) (actionsDone : ActionsDone) : M P ActionsDone :=
  match l with
  | [] => ret actionsDone
  | user :: l' =>
      r <- attempt (synchronizeUser user) ;;
      match r with
      | inr _ => syncNewUsers l' (incSuccess actionsDone)
      | inl _ => syncNewUsers l' (incError actionsDone)
      end
  end.

(** Second loop of [synchronizeUsers]: the customers changed in billing. *)
Fixpoint syncChangedUsers (ids : list string) (actionsDone : ActionsDone) : M P ActionsDone :=
  match ids with
  | [] => ret actionsDone
  | userBillingIDChangedInBilling :: ids' =>
      user <- readStorage (fun s => UserStorage.getUserByBillingID s userBillingIDChangedInBilling) ;;
      match user with
      | None => syncChangedUsers ids' (incError actionsDone)
      | Some user =>
          billingUser <- call (OpGetUser userBillingIDChangedInBilling)
                              (getUser prov userBillingIDChangedInBilling) ;;
          match billingUser with
          | None =>
              match billingData user with
              | None => throw (TypeError "Cannot set properties of undefined (setting 'hasSynchroError')")
              | Some bd =>
                  writeStorage (fun s => UserStorage.saveUserBillingData s (user_id user)
                                           (Some (setSynchroError bd))) ;;;
                  syncChangedUsers ids' (incError actionsDone)
              end
          | Some _ =>
              r <- attempt (synchronizeUser user) ;;
              match r with
              | inr _ => syncChangedUsers ids' (incSuccess actionsDone)
              | inl _ => syncChangedUsers ids' (incError actionsDone)
              end
          end
      end
  end.

(** [synchronizeUsers] *)
Definition synchronizeUsers : M P ActionsDone :=
  call OpCheckConnection (checkConnection prov) ;;;
  usersBillingInError <- readStorage UserStorage.getUsersInError ;;
  let actionsDone := {| inSuccess := 0; inError := length (result usersBillingInError) |} in
  newUsersToSyncInBilling <- readStorage UserStorage.getUsers ;;
  actionsDone <- (if (count newUsersToSyncInBilling >? 0)%Z
                  then syncNewUsers (result newUsersToSyncInBilling) actionsDone
                  else ret actionsDone) ;;
  userBillingIDsChangedInBilling <- call OpGetUpdatedUserIDsInBilling (getUpdatedUserIDsInBilling prov) ;;
  actionsDone <- (if (0 <? length userBillingIDsChangedInBilling)%nat
                  then syncChangedUsers userBillingIDsChangedInBilling actionsDone
                  else ret actionsDone) ;;
  billingSettings <- readStorage SettingStorage.getBillingSettings ;;
  now <- newDate ;;
  writeStorage (fun s => SettingStorage.saveBillingSettings s (withUsersWatermark billingSettings now)) ;;;
  ret actionsDone.

(** [checkAndGetBillingUser] *)
Definition checkAndGetBillingUser (user : User) : M P BillingUser :=
  billingUser <- call (OpGetUserByEmail (email user)) (getUserByEmail prov (email user)) ;;
  match billingUser with
  | None => throw (BackendError "User does not exist in billing system")
  | Some billingUser =>
      if negb (hasCustomerID (bu_billingData billingUser)) then
        throw (BackendError "User has no billing data in billing system")
      else if negb (hasCustomerID (billingData user)) then
        throw (BackendError "User has no billing data in e-Mobility")
      else if negb (sameCustomerID (customerIDOf (billingData user))
                                   (customerIDOf (bu_billingData billingUser))) then
        throw (BackendError "User has not the billing data in e-Mobility and in the billing system")
      else ret billingUser
  end.

(** One turn of the loop of [synchronizeInvoices], the body of its [try].
    The result says whether the item ends in [inSuccess++] ([true]) or in
    [inError++; continue] ([false]), and gives back the scoped [user]
    object, which the turn may have stamped. *)
Definition processInvoice (user : option User) (invoiceIDInBilling : string)
  : M P (bool * option User) :=
  invoiceInBilling <- call (OpGetInvoice invoiceIDInBilling) (getInvoice prov invoiceIDInBilling) ;;
  invoice <- readStorage (fun s => BillingStorage.getInvoiceByBillingInvoiceID s invoiceIDInBilling) ;;
  match invoiceInBilling, invoice with
  | None, None => ret (false, user)
  | None, Some _ =>
      writeStorage (fun s => BillingStorage.deleteInvoiceByInvoiceID s invoiceIDInBilling) ;;;
      ret (true, user)
  | Some invoiceInBilling, _ =>
      let invoiceInBilling :=
        match invoice with
        | Some i => carryID invoiceInBilling (inv_id i)
        | None => invoiceInBilling
        end in
      userInInvoice <- match user with
                       | Some u => ret (Some u)
                       | None => readStorage (fun s => UserStorage.getUserByBillingID s
                                                         (inv_customerID invoiceInBilling))
                       end ;;
      match userInInvoice with
      | None => ret (false, user)
      | Some userInInvoice =>
          let invoiceInBilling :=
            setOwner invoiceInBilling userInInvoice
                     (match invoice with Some i => downloadable i | None => false end) in
          id <- saveInvoiceM invoiceInBilling ;;
          let invoiceInBilling := carryID invoiceInBilling (Some id) in
          (if mustDownload invoice invoiceInBilling then
             invoiceDocument <- call (OpDownloadInvoiceDocument invoiceIDInBilling)
                                     (downloadInvoiceDocument prov invoiceInBilling) ;;
             match invoiceDocument with
             | Some d =>
                 writeStorage (fun s => BillingStorage.saveInvoiceDocument s d) ;;;
                 saveInvoiceM (setDownloadable invoiceInBilling true) ;;;
                 ret tt
             | None => ret tt
             end
           else ret tt) ;;;
          match billingData userInInvoice with
          | None =>
              throw (TypeError "Cannot set properties of undefined (setting 'invoicesLastSynchronizedOn')")
          | Some bd =>
              now <- newDate ;;
              let bd' := stampInvoiceSync bd now in
              writeStorage (fun s => UserStorage.saveUserBillingData s (user_id userInInvoice) (Some bd')) ;;;
              ret (true, match user with
                         | Some _ => Some (withBillingData userInInvoice (Some bd'))
                         | None => None
                         end)
          end
      end
  end.

(** The loop of [synchronizeInvoices], with its [try]/[catch]. *)
Fixpoint syncInvoices (user : option User) (ids : list string) (actionsDone : ActionsDone)
  : M P ActionsDone :=
  match ids with
  | [] => ret actionsDone
  | invoiceIDInBilling :: ids' =>
      r <- attempt (processInvoice user invoiceIDInBilling) ;;
      match r with
      | inr (true, user') => syncInvoices user' ids' (incSuccess actionsDone)
      | inr (false, user') => syncInvoices user' ids' (incError actionsDone)
      | inl _ => syncInvoices user ids' (incError actionsDone)
      end
  end.

(** [synchronizeInvoices] *)
Definition synchronizeInvoices (user : option User) : M P ActionsDone :=
  call OpCheckConnection (checkConnection prov) ;;;
  billingUser <- match user with
                 | Some u => b <- checkAndGetBillingUser u ;; ret (Some b)
                 | None => ret None
                 end ;;
  invoiceIDsInBilling <-
    match billingUser with
    | Some b =>
        match user with
        | Some u =>
            call (OpGetUpdatedInvoiceIDsInBilling true)
                 (getUpdatedInvoiceIDsInBilling prov
                    (Some {| bu_email := bu_email b; bu_billingData := billingData u |}))
        | None => throw (TypeError "Cannot read properties of undefined (reading 'billingData')")
        end
    | None =>
        call (OpGetUpdatedInvoiceIDsInBilling false) (getUpdatedInvoiceIDsInBilling prov None)
    end ;;
  actionsDone <- match invoiceIDsInBilling with
                 | Some ids =>
                     if (0 <? length ids)%nat then syncInvoices user ids noActions
                     else ret noActions
                 | None => ret noActions
                 end ;;
  match user with
  | None =>
      billingSettings <- readStorage SettingStorage.getBillingSettings ;;
      now <- newDate ;;
      writeStorage (fun s => SettingStorage.saveBillingSettings s
                               (withInvoicesWatermark billingSettings now))
  | Some _ => ret tt
  end ;;;
  ret actionsDone.

(** The loop of [chargeInvoices]. *)
Fixpoint chargeOpened (l : list BillingInvoice) (actionsDone : ActionsDone) : M P ActionsDone :=
  match l with
  | [] => ret actionsDone
  | openInvoice :: l' =>
      r <- attempt (call (OpChargeInvoice (billingInvoiceID openInvoice))
                         (chargeInvoice prov openInvoice)) ;;
      match r with
      | inr _ => chargeOpened l' (incSuccess actionsDone)
      | inl _ => chargeOpened l' (incError actionsDone)
      end
  end.

(** [chargeInvoices] *)
Definition chargeInvoices : M P ActionsDone :=
  call OpCheckConnection (checkConnection prov) ;;;
  openedInvoices <- readStorage BillingStorage.getInvoicesToPay ;;
  chargeOpened (result openedInvoices) noActions.

End Engine.

(** ** Observations on a run *)

Definition isDownloadOf (id : string) (c : Call) : bool :=
  match op c with
  | OpDownloadInvoiceDocument i => i =? id
  | _ => false
  end.

(** How many times the document of invoice [id] was asked for. *)
Definition downloadsOf (id : string) (l : list Call) : nat :=
  length (filter (isDownloadOf id) l).

Definition isInvoiceCall (c : Call) : bool :=
  match op c with
  | OpGetInvoice _ | OpGetUpdatedInvoiceIDsInBilling _ | OpDownloadInvoiceDocument _ => true
  | _ => false
  end.

Definition failed (c : Call) : bool := negb (succeeded c).

(** The conditions of the document policy, in the words of the
    specification: no prior record, or the prior record is not downloadable,
    or its item count differs from the provider's. *)
Definition redownload (prior : option BillingInvoice) (fromProvider : BillingInvoice) : bool :=
  match prior with
  | None => true
  | Some i => negb (downloadable i) || negb (Z.eqb (nbrOfItems i) (nbrOfItems fromProvider))
  end.

(** The flag an upsert starts from: the prior record's, [false] without one. *)
Definition priorDownloadable (prior : option BillingInvoice) : bool :=
  match prior with
  | Some i => downloadable i
  | None => false
  end.

(** The invoice as the first [saveInvoice] of a turn receives it. *)
Definition upserted (prior : option BillingInvoice) (fromProvider : BillingInvoice) (owner : User)
  : BillingInvoice :=
  setOwner (match prior with
            | Some i => carryID fromProvider (inv_id i)
            | None => fromProvider
            end) owner (priorDownloadable prior).

(** The owner of an invoice: the scoped user, or else the local user
    whose customer identifier is the invoice's. *)
Definition ownerOf (user : option User) (s : Storage) (fromProvider : BillingInvoice) : option User :=
  match user with
  | Some u => Some u
  | None => UserStorage.getUserByBillingID s (inv_customerID fromProvider)
  end.

(** The identity checks of a user-scoped invoice sweep, in the words of the
    specification. *)
Definition identityMismatch (user : User) (billingUser : option BillingUser) : bool :=
  match billingUser with
  | None => true
  | Some b =>
      negb (hasCustomerID (bu_billingData b))
      || negb (hasCustomerID (billingData user))
      || negb (sameCustomerID (customerIDOf (billingData user)) (customerIDOf (bu_billingData b)))
  end.

(** What a provider owes the user sweep: [customersOf] lists the
    correlating key (the e-mail address) of every customer the provider
    holds, one entry per customer.  [userExists] answers by that list and
    creates nothing, [createUser] adds one customer for the user when it
    succeeds and none when it throws, and the other methods of the user
    sweep create no customer. *)
Record UserContract {P : Type} (prov : BillingProvider P) (customersOf : P -> list string) : Prop :=
  mkUserContract {
  exists_answer : forall u p b, fst (userExists prov u p) = inr b ->
                                b = existsb (String.eqb (email u)) (customersOf p);
  exists_keeps : forall u p, customersOf (snd (userExists prov u p)) = customersOf p;
  create_adds : forall u p, Permutation (customersOf (snd (createUser prov u p)))
                                        (if isOk (fst (createUser prov u p))
                                         then email u :: customersOf p else customersOf p);
  update_keeps : forall u p, customersOf (snd (updateUser prov u p)) = customersOf p;
  getUser_keeps : forall id p, customersOf (snd (getUser prov id p)) = customersOf p;
  check_keeps : forall p, customersOf (snd (checkConnection prov p)) = customersOf p;
  changed_keeps : forall p, customersOf (snd (getUpdatedUserIDsInBilling prov p)) = customersOf p
}.

(** ** An in-memory provider

    A provider that keeps its customers and invoices in lists; the runs
    below are made against it. *)

Module InMemory.

Record State := mkState {
  reachable : bool;
  customers : list BillingUser;
  changedCustomerIDs : list string;
  providerInvoices : list BillingInvoice;
  changedInvoiceIDs : list string;
  documents : list (string * string);
  rejectedUsers : list string;
  rejectedInvoices : list string
}.

Definition mem (x : string) (l : list string) : bool := existsb (String.eqb x) l.

Definition withCustomers (p : State) (l : list BillingUser) : State :=
  {| reachable := reachable p; customers := l;
     changedCustomerIDs := changedCustomerIDs p;
     providerInvoices := providerInvoices p;
     changedInvoiceIDs := changedInvoiceIDs p;
     documents := documents p;
     rejectedUsers := rejectedUsers p;
     rejectedInvoices := rejectedInvoices p |}.

Definition byEmail (mail : string) (b : BillingUser) : bool := bu_email b =? mail.

Definition byCustomerID (id : string) (b : BillingUser) : bool :=
  match customerIDOf (bu_billingData b) with
  | Some c => c =? id
  | None => false
  end.

Definition newCustomer (u : User) : BillingUser :=
  {| bu_email := email u;
     bu_billingData := Some {| customerID := Some ("cus_" ++ user_id u);
                               hasSynchroError := false;
                               invoicesLastSynchronizedOn := None |} |}.

Definition ops : BillingProvider State :=
  {| checkConnection := fun p =>
       if reachable p then (inr tt, p) else (inl (ProviderError "Connection failed"), p);
     getUpdatedUserIDsInBilling := fun p => (inr (changedCustomerIDs p), p);
     getUser := fun id p => (inr (find (byCustomerID id) (customers p)), p);
     getUserByEmail := fun mail p => (inr (find (byEmail mail) (customers p)), p);
     createUser := fun u p =>
       if mem (user_id u) (rejectedUsers p) then (inl (ProviderError "Customer rejected"), p)
       else (inr (newCustomer u), withCustomers p (customers p ++ [newCustomer u]));
     updateUser := fun u p =>
       if mem (user_id u) (rejectedUsers p) then (inl (ProviderError "Customer rejected"), p)
       else match find (byEmail (email u)) (customers p) with
            | Some b => (inr b, p)
            | None => (inl (ProviderError "No such customer"), p)
            end;
     userExists := fun u p => (inr (existsb (byEmail (email u)) (customers p)), p);
     getInvoice := fun id p =>
       (inr (find (BillingStorage.hasBillingInvoiceID id) (providerInvoices p)), p);
     getUpdatedInvoiceIDsInBilling := fun _ p => (inr (Some (changedInvoiceIDs p)), p);
     downloadInvoiceDocument := fun i p =>
       if mem (billingInvoiceID i) (rejectedInvoices p)
       then (inl (ProviderError "Download failed"), p)
       else match find (fun d => fst d =? billingInvoiceID i) (documents p) with
            | Some d => (inr (Some {| doc_invoiceID := inv_id i; doc_content := snd d |}), p)
            | None => (inr None, p)
            end;
     chargeInvoice := fun i p =>
       if mem (billingInvoiceID i) (rejectedInvoices p)
       then (inl (ProviderError "Charge failed"), p)
       else (inr tt, p) |}.

Definition customersOf (p : State) : list string := map bu_email (customers p).

Definition emptyStorage : Storage :=
  {| users := []; invoices := []; invoiceDocuments := [];
     billingSettings := {| usersLastSynchronizedOn := None;
                           invoicesLastSynchronizedOn_global := None |};
     nextInvoiceID := 1%N |}.

End InMemory.

(** ** Frames

    [keeps R m]: every run of [m], whether it returns or throws, takes a
    world to one related to it by [R]. *)

Definition keeps {P A : Type} (R : World P -> World P -> Prop) (m : M P A) : Prop :=
  forall w, R w (snd (m w)).

(** A run that leaves the billing settings alone and does not turn the
    clock back. *)
Definition settingsKept {P : Type} (w w' : World P) : Prop :=
  billingSettings (storage w') = billingSettings (storage w) /\ (clock w <= clock w')%Z.

(** A run after which no correlating key has two customers if none had
    before. *)
Definition noSecondCustomer {P : Type} (customersOf : P -> list string) (w w' : World P) : Prop :=
  NoDup (customersOf (provider w)) -> NoDup (customersOf (provider w')).

(** ** The forced synchronization of one user *)

Definition overrideCustomerID (bd fromProvider : BillingUserData) : BillingUserData :=
  {| customerID := customerID fromProvider; hasSynchroError := false;
     invoicesLastSynchronizedOn := invoicesLastSynchronizedOn bd |}.

Section ForceEngine.

Context {P : Type} (prov : BillingProvider P).

(** [forceSynchronizeUser].  The method returns nothing and works on the
    [user] object it is given; the result here is that object as the call
    leaves it. *)
Definition forceSynchronizeUser (user : User) : M P User :=
  billingUser <- call (OpGetUserByEmail (email user)) (getUserByEmail prov (email user)) ;;
  user <- match billingUser with
          | Some billingUser =>
              match billingData user with
              | Some bd =>
                  match bu_billingData billingUser with
                  | Some fromProvider =>
                      ret (withBillingData user (Some (overrideCustomerID bd fromProvider)))
                  | None =>
                      throw (TypeError "Cannot read properties of undefined (reading 'customerID')")
                  end
              | None =>
                  billingUser <- call (OpUpdateUser (user_id user)) (updateUser prov user) ;;
                  ret (withBillingData user (bu_billingData billingUser))
              end
          | None =>
              created <- call (OpCreateUser (user_id user)) (createUser prov user) ;;
              ret (withBillingData user (bu_billingData created))
          end ;;
  writeStorage (fun s => UserStorage.saveUserBillingData s (user_id user) (billingData user)) ;;;
  ret user.

End ForceEngine.

(** ** Feature toggles *)

Module FeatureToggles.

Inductive Feature :=
| BILLING_SYNC_USERS
| BILLING_CHECK_THRESHOLD_ON_STOP
| BILLING_PREVENT_CUSTOMER_DELETION
| PRINCING_NEW_MODEL.

(** The numeric value of an enum member. *)
Definition value (f : Feature) : Z :=
  match f with
  | BILLING_SYNC_USERS => 0
  | BILLING_CHECK_THRESHOLD_ON_STOP => 1
  | BILLING_PREVENT_CUSTOMER_DELETION => 2
  | PRINCING_NEW_MODEL => 3
  end.

Definition activeFeatures : list Feature :=
  [ BILLING_CHECK_THRESHOLD_ON_STOP; BILLING_PREVENT_CUSTOMER_DELETION; PRINCING_NEW_MODEL ].

(** [activeFeatures.includes(feature)] *)
Definition isFeatureActive (feature : Feature) : bool :=
  existsb (fun f => Z.eqb (value f) (value feature)) activeFeatures.

End FeatureToggles.

(** ** More observations *)

(** The user of the transaction has billing data with a customer
    identifier. *)
Definition customerKnown (t : Transaction) : bool :=
  match tx_user t with
  | Some u => hasCustomerID (billingData u)
  | None => false
  end.

Definition isTypeError {A} (r : Res A) : bool :=
  match r with inl (TypeError _) => true | _ => false end.

Definition total (a : ActionsDone) : nat := inSuccess a + inError a.

(** The calls that create or change a customer. *)
Definition isCustomerWrite (c : Call) : bool :=
  match op c with
  | OpCreateUser _ | OpUpdateUser _ => true
  | _ => false
  end.

(** What a provider owes the lookup by e-mail address: it answers by the
    customers it holds and creates none. *)
Record LookupContract {P : Type} (prov : BillingProvider P) (customersOf : P -> list string) : Prop :=
  mkLookupContract {
  lookup_answer : forall mail p o, fst (getUserByEmail prov mail p) = inr o ->
                                   present o = existsb (String.eqb mail) (customersOf p);
  lookup_keeps : forall mail p, customersOf (snd (getUserByEmail prov mail p)) = customersOf p
}.

(** The billing data storage holds for the users with a given identifier. *)
Definition storedBillingData (s : Storage) (id : string) : list (option BillingUserData) :=
  map billingData (filter (fun u => user_id u =? id) (users s)).

(** ** An in-memory provider with outages

    The in-memory provider, with a list of identifiers for which the
    lookups [getUser] and [getInvoice] throw. *)

Module Flaky.

Definition State : Type := (InMemory.State * list string)%type.

Definition lift {A} (f : InMemory.State -> Res A * InMemory.State) : State -> Res A * State :=
  fun p => let (r, q) := f (fst p) in (r, (q, snd p)).

Definition guarded {A} (id : string) (f : InMemory.State -> Res A * InMemory.State)
  : State -> Res A * State :=
  fun p => if InMemory.mem id (snd p)
           then (inl (ProviderError "Service unavailable"), p)
           else lift f p.

Definition ops : BillingProvider State :=
  {| checkConnection := lift (checkConnection InMemory.ops);
     getUpdatedUserIDsInBilling := lift (getUpdatedUserIDsInBilling InMemory.ops);
     getUser := fun id => guarded id (getUser InMemory.ops id);
     getUserByEmail := fun mail => lift (getUserByEmail InMemory.ops mail);
     createUser := fun u => lift (createUser InMemory.ops u);
     updateUser := fun u => lift (updateUser InMemory.ops u);
     userExists := fun u => lift (userExists InMemory.ops u);
     getInvoice := fun id => guarded id (getInvoice InMemory.ops id);
     getUpdatedInvoiceIDsInBilling := fun b => lift (getUpdatedInvoiceIDsInBilling InMemory.ops b);
     downloadInvoiceDocument := fun i => lift (downloadInvoiceDocument InMemory.ops i);
     chargeInvoice := fun i => lift (chargeInvoice InMemory.ops i) |}.

End Flaky.

(** ** Concrete data for the runs *)

Module Scenario.

Definition synced (id : string) : option BillingUserData :=
  Some {| customerID := Some id; hasSynchroError := false; invoicesLastSynchronizedOn := None |}.

Definition inError (id : string) : option BillingUserData :=
  Some {| customerID := Some id; hasSynchroError := true; invoicesLastSynchronizedOn := None |}.

Definition alice : User :=
  {| user_id := "u1"; email := "alice@example.org"; status := ACTIVE; billingData := synced "cus_u1" |}.

(** A user that was never synchronized. *)
Definition bob : User :=
  {| user_id := "u2"; email := "bob@example.org"; status := ACTIVE; billingData := None |}.

Definition station : ChargingStation := {| cs_id := "CS-1" |}.

(** A session of a never synchronized user, for which no billing data was
    recorded at start. *)
Definition unbilledSession : Transaction :=
  {| tx_userID := Some "u2"; tx_user := Some bob;
     tx_chargeBox := Some station; tx_billingData := None |}.

(** A session of a synchronized user, for which no billing data was
    recorded at start. *)
Definition sessionWithoutBillingData : Transaction :=
  {| tx_userID := Some "u1"; tx_user := Some alice;
     tx_chargeBox := Some station; tx_billingData := None |}.

(** Five open invoices and one paid; the provider refuses to settle the
    second and the fourth open one. *)
Definition invoiceOf (n : N) (id : string) (st : BillingInvoiceStatus) : BillingInvoice :=
  {| inv_id := Some n; billingInvoiceID := id; inv_customerID := "cus_u1";
     inv_userID := Some "u1"; inv_user := None; inv_status := st;
     nbrOfItems := 1; downloadable := true |}.

Definition ledger : list BillingInvoice :=
  [ invoiceOf 1 "in_1" OPEN; invoiceOf 2 "in_2" OPEN; invoiceOf 3 "in_3" PAID;
    invoiceOf 4 "in_4" OPEN; invoiceOf 5 "in_5" OPEN; invoiceOf 6 "in_6" OPEN ].

Definition chargeWorld : World InMemory.State :=
  {| storage := {| users := [alice]; invoices := ledger; invoiceDocuments := [];
                   billingSettings := billingSettings InMemory.emptyStorage;
                   nextInvoiceID := 7%N |};
     provider := {| InMemory.reachable := true;
                    InMemory.customers := [];
                    InMemory.changedCustomerIDs := [];
                    InMemory.providerInvoices := [];
                    InMemory.changedInvoiceIDs := [];
                    InMemory.documents := [];
                    InMemory.rejectedUsers := [];
                    InMemory.rejectedInvoices := ["in_2"; "in_5"] |};
     clock := 1000;
     calls := [] |}.

(** An invoice as the provider returns it. *)
Definition fromProvider (id : string) (items : Z) : BillingInvoice :=
  {| inv_id := None; billingInvoiceID := id; inv_customerID := "cus_u1";
     inv_userID := None; inv_user := None; inv_status := OPEN;
     nbrOfItems := items; downloadable := false |}.

(** The provider holds [in_1] (new, with a document), [in_2] (known
    locally, unchanged and downloadable), [in_3] (new, its download throws)
    and [in_4] (new, no document yet); [in_5] is known only locally and
    [in_6] nowhere. *)
Definition invoiceProvider (changed : list string) : InMemory.State :=
  {| InMemory.reachable := true;
     InMemory.customers := [ {| bu_email := "alice@example.org";
                                 bu_billingData := synced "cus_u1" |} ];
     InMemory.changedCustomerIDs := [];
     InMemory.providerInvoices :=
       [ fromProvider "in_1" 3; fromProvider "in_2" 2;
         fromProvider "in_3" 1; fromProvider "in_4" 1 ];
     InMemory.changedInvoiceIDs := changed;
     InMemory.documents := [ ("in_1", "%PDF in_1"); ("in_2", "%PDF in_2") ];
     InMemory.rejectedUsers := [];
     InMemory.rejectedInvoices := ["in_3"] |}.

Definition invoiceStorage : Storage :=
  {| users := [alice];
     invoices := [ {| inv_id := Some 7%N; billingInvoiceID := "in_2"; inv_customerID := "cus_u1";
                      inv_userID := Some "u1"; inv_user := None; inv_status := OPEN;
                      nbrOfItems := 2; downloadable := true |};
                   {| inv_id := Some 8%N; billingInvoiceID := "in_5"; inv_customerID := "cus_u1";
                      inv_userID := Some "u1"; inv_user := None; inv_status := OPEN;
                      nbrOfItems := 1; downloadable := true |} ];
     invoiceDocuments := [];
     billingSettings := {| usersLastSynchronizedOn := Some 500%Z;
                           invoicesLastSynchronizedOn_global := Some 500%Z |};
     nextInvoiceID := 9%N |}.

Definition invoiceWorld (changed : list string) : World InMemory.State :=
  {| storage := invoiceStorage; provider := invoiceProvider changed;
     clock := 1000; calls := [] |}.

(** A local user whose customer identifier is not the one the provider
    holds for the same e-mail address. *)
Definition stranger : User :=
  {| user_id := "u9"; email := "alice@example.org"; status := ACTIVE;
     billingData := synced "cus_u9" |}.

(** Three users in billing-sync error, two active users never
    synchronized; the provider refuses the customer of [dave]. *)
Definition erin : User :=
  {| user_id := "u3"; email := "erin@example.org"; status := ACTIVE; billingData := inError "cus_u3" |}.

Definition eve : User :=
  {| user_id := "u6"; email := "eve@example.org"; status := ACTIVE; billingData := inError "cus_u6" |}.

Definition ed : User :=
  {| user_id := "u7"; email := "ed@example.org"; status := BLOCKED; billingData := inError "cus_u7" |}.

Definition dave : User :=
  {| user_id := "u4"; email := "dave@example.org"; status := ACTIVE; billingData := None |}.

Definition userStorage : Storage :=
  {| users := [erin; dave; eve; bob; ed];
     invoices := []; invoiceDocuments := [];
     billingSettings := {| usersLastSynchronizedOn := Some 500%Z;
                           invoicesLastSynchronizedOn_global := Some 500%Z |};
     nextInvoiceID := 1%N |}.

Definition userProvider (changed : list string) : InMemory.State :=
  {| InMemory.reachable := true;
     InMemory.customers := [];
     InMemory.changedCustomerIDs := changed;
     InMemory.providerInvoices := [];
     InMemory.changedInvoiceIDs := [];
     InMemory.documents := [];
     InMemory.rejectedUsers := ["u4"];
     InMemory.rejectedInvoices := [] |}.

Definition userWorld (changed : list string) : World InMemory.State :=
  {| storage := userStorage; provider := userProvider changed;
     clock := 1000; calls := [] |}.

End Scenario.

(** ** More concrete data *)

Module Cases.

(** A session that starts and stops in order. *)
Definition billedSession : Transaction :=
  {| tx_userID := Some "u1"; tx_user := Some Scenario.alice;
     tx_chargeBox := Some Scenario.station;
     tx_billingData := Some {| invoiceID := None |} |}.

(** The provider cannot be reached. *)
Definition offlineWorld : World InMemory.State :=
  {| storage := Scenario.userStorage;
     provider := InMemory.withCustomers
                   {| InMemory.reachable := false;
                      InMemory.customers := [];
                      InMemory.changedCustomerIDs := ["cus_u3"];
                      InMemory.providerInvoices := [];
                      InMemory.changedInvoiceIDs := ["in_1"];
                      InMemory.documents := [];
                      InMemory.rejectedUsers := [];
                      InMemory.rejectedInvoices := [] |} [];
     clock := 1000; calls := [] |}.

(** The lookups of customer [cus_u3] and of invoice [in_1] throw. *)
Definition outageUserWorld : World Flaky.State :=
  {| storage := Scenario.userStorage;
     provider := (Scenario.userProvider ["cus_u3"; "cus_u6"], ["cus_u3"; "in_1"]);
     clock := 1000; calls := [] |}.

Definition outageInvoiceWorld : World Flaky.State :=
  {| storage := Scenario.invoiceStorage;
     provider := (Scenario.invoiceProvider ["in_1"; "in_2"], ["cus_u3"; "in_1"]);
     clock := 1000; calls := [] |}.

(** The invoices of the provider belong to a customer that no local user
    carries. *)
Definition orphanWorld : World InMemory.State :=
  {| storage := {| users := [Scenario.bob];
                   invoices := invoices Scenario.invoiceStorage;
                   invoiceDocuments := [];
                   billingSettings := billingSettings Scenario.invoiceStorage;
                   nextInvoiceID := 9%N |};
     provider := Scenario.invoiceProvider ["in_2"];
     clock := 1000; calls := [] |}.

(** The provider holds a customer for [alice]'s address that has no billing
    data. *)
Definition bareCustomer : BillingUser :=
  {| bu_email := "alice@example.org"; bu_billingData := None |}.

Definition bareCustomerWorld : World InMemory.State :=
  {| storage := Scenario.invoiceStorage;
     provider := InMemory.withCustomers (Scenario.invoiceProvider []) [bareCustomer];
     clock := 1000; calls := [] |}.

End Cases.

(** * Properties *)

Open Scope list_scope.

(** ** Transaction guards *)

Section GuardFacts.

Import Guard.

(** When the transaction carries billing data, a stop is refused with a
    precondition error exactly under the four conditions, and accepted
    otherwise. *)
Lemma checkStopTransaction_with_billingData (t : Transaction) :
  present (tx_billingData t) = true ->
  (isBackendError (checkStopTransaction t) = stopRefused t) /\
  (isOk (checkStopTransaction t) = negb (stopRefused t)).
Proof.
  unfold checkStopTransaction, stopRefused, noUser, noChargingStation,
    alreadyInvoiced, userLacksBillingData.
  destruct t as [uid u cb bd]; simpl.
  destruct bd as [bd|]; simpl; [intros _ | discriminate].
  destruct (truthy uid), u as [u|], cb as [cb|]; simpl; try (split; reflexivity);
    destruct (truthy (invoiceID bd)); simpl; try (split; reflexivity);
    destruct (billingData u); simpl; split; reflexivity.
Qed.

(** C1, at the input where the code departs from it: the session has a
    user, a user identifier and a charging station, its user has no billing
    data, so the stop must be refused with the precondition error
    'User has no Billing Data'; the transaction has no billing data of its
    own, and the code throws a [TypeError] instead. *)
Theorem checkStopTransaction_unbilled_session :
  userLacksBillingData Scenario.unbilledSession = true /\
  stopRefused Scenario.unbilledSession = true /\
  isBackendError (checkStopTransaction Scenario.unbilledSession) = false /\
  checkStopTransaction Scenario.unbilledSession =
    inl (TypeError "Cannot read properties of undefined (reading 'invoiceID')").
Proof. repeat split. Qed.

(** C10: a transaction with a user identifier, a user and a charging
    station but no billing data of its own makes [checkStopTransaction]
    throw a [TypeError]: it neither returns nor raises the precondition
    error. *)
Theorem checkStopTransaction_dereferences_absent_billingData (t : Transaction) :
  truthy (tx_userID t) = true ->
  present (tx_user t) = true ->
  present (tx_chargeBox t) = true ->
  tx_billingData t = None ->
  (exists m, checkStopTransaction t = inl (TypeError m)) /\
  isOk (checkStopTransaction t) = false /\
  isBackendError (checkStopTransaction t) = false.
Proof.
  intros Hid Hu Hcb Hbd. unfold checkStopTransaction.
  rewrite Hid, Hu, Hcb, Hbd. simpl.
  split; [eexists; reflexivity | split; reflexivity].
Qed.

Lemma checkStopTransaction_dereferences_absent_billingData_witness :
  (exists m, checkStopTransaction Scenario.sessionWithoutBillingData = inl (TypeError m)) /\
  isOk (checkStopTransaction Scenario.sessionWithoutBillingData) = false /\
  isBackendError (checkStopTransaction Scenario.sessionWithoutBillingData) = false.
Proof.
  apply (checkStopTransaction_dereferences_absent_billingData Scenario.sessionWithoutBillingData);
    reflexivity.
Defined.

End GuardFacts.

(** ** Charging the open invoices *)

Section ChargeFacts.

Context {P : Type} (prov : BillingProvider P).

Lemma succeeded_or_failed (cs : list Call) :
  length (filter succeeded cs) + length (filter failed cs) = length cs.
Proof.
  induction cs as [|c cs IH]; simpl; [reflexivity|].
  unfold failed at 1. destruct (succeeded c); simpl; lia.
Qed.

(** The loop makes one call per invoice, in list order, and counts each
    call by its outcome; it writes nothing. *)
Lemma chargeOpened_run (l : list BillingInvoice) :
  forall (a : ActionsDone) (w : World P),
  exists cs w',
    chargeOpened prov l a w =
      (inr {| inSuccess := inSuccess a + length (filter succeeded cs);
              inError := inError a + length (filter failed cs) |}, w') /\
    calls w' = calls w ++ cs /\
    map op cs = map (fun i => OpChargeInvoice (billingInvoiceID i)) l /\
    storage w' = storage w /\ clock w' = clock w.
Proof.
  induction l as [|i l IH]; intros a w.
  - exists [], w. simpl. unfold ret. rewrite !Nat.add_0_r, app_nil_r.
    destruct a; repeat split.
  - cbn [chargeOpened]. unfold bind, attempt, call.
    destruct (chargeInvoice prov i (provider w)) as [r p'] eqn:E.
    set (w1 := mkWorld (storage w) p' (clock w)
                 (calls w ++ [mkCall (OpChargeInvoice (billingInvoiceID i)) (isOk r)])).
    destruct r as [e|u].
    + destruct (IH (incError a) w1) as (cs & w' & Hrun & Hcalls & Hops & Hst & Hck).
      exists (mkCall (OpChargeInvoice (billingInvoiceID i)) false :: cs), w'.
      rewrite Hrun. simpl. unfold failed at 1. simpl.
      repeat split; try assumption.
      * rewrite <- !Nat.add_succ_comm. reflexivity.
      * rewrite Hcalls. unfold w1. simpl. rewrite <- app_assoc. reflexivity.
      * f_equal. exact Hops.
    + destruct (IH (incSuccess a) w1) as (cs & w' & Hrun & Hcalls & Hops & Hst & Hck).
      exists (mkCall (OpChargeInvoice (billingInvoiceID i)) true :: cs), w'.
      rewrite Hrun. simpl. unfold failed at 1. simpl.
      repeat split; try assumption.
      * rewrite <- !Nat.add_succ_comm. reflexivity.
      * rewrite Hcalls. unfold w1. simpl. rewrite <- app_assoc. reflexivity.
      * f_equal. exact Hops.
Qed.

(** C8: once the connection check has passed, [chargeInvoices] calls
    [chargeInvoice] once for every invoice to pay, in the order storage
    returned them; a failing call is counted in [inError], a passing one in
    [inSuccess], the two counts add up to the number of invoices to pay, and
    storage (so every stored invoice and its status) is left as it was. *)
Theorem chargeInvoices_attempts_every_invoice (w : World P) (p1 : P) :
  checkConnection prov (provider w) = (inr tt, p1) ->
  exists (a : ActionsDone) (w' : World P) (cs : list Call),
    chargeInvoices prov w = (inr a, w') /\
    calls w' = calls w ++ mkCall OpCheckConnection true :: cs /\
    map op cs = map (fun i => OpChargeInvoice (billingInvoiceID i))
                    (result (BillingStorage.getInvoicesToPay (storage w))) /\
    inSuccess a = length (filter succeeded cs) /\
    inError a = length (filter failed cs) /\
    inSuccess a + inError a = length (result (BillingStorage.getInvoicesToPay (storage w))) /\
    storage w' = storage w.
Proof.
  intros Hc. unfold chargeInvoices, bind at 1, call at 1. rewrite Hc.
  unfold bind, readStorage. cbn [storage isOk].
  set (w1 := mkWorld (storage w) p1 (clock w) (calls w ++ [mkCall OpCheckConnection true])).
  destruct (chargeOpened_run (result (BillingStorage.getInvoicesToPay (storage w))) noActions w1)
    as (cs & w' & Hrun & Hcalls & Hops & Hst & Hck).
  exists {| inSuccess := length (filter succeeded cs); inError := length (filter failed cs) |}, w', cs.
  split; [exact Hrun|].
  split; [rewrite Hcalls; unfold w1; simpl; rewrite <- app_assoc; reflexivity|].
  split; [exact Hops|].
  cbn [inSuccess inError]. repeat split.
  - rewrite succeeded_or_failed, <- (length_map op cs), Hops, length_map. reflexivity.
  - exact Hst.
Qed.

End ChargeFacts.

(** The scenario of the specification: five invoices to pay, two of which
    the provider refuses. *)
Example chargeInvoices_five_two_fail :
  length (result (BillingStorage.getInvoicesToPay (storage Scenario.chargeWorld))) = 5 /\
  fst (chargeInvoices InMemory.ops Scenario.chargeWorld) = inr {| inSuccess := 3; inError := 2 |} /\
  calls (snd (chargeInvoices InMemory.ops Scenario.chargeWorld)) =
    [ mkCall OpCheckConnection true;
      mkCall (OpChargeInvoice "in_1") true; mkCall (OpChargeInvoice "in_2") false;
      mkCall (OpChargeInvoice "in_4") true; mkCall (OpChargeInvoice "in_5") false;
      mkCall (OpChargeInvoice "in_6") true ].
Proof. repeat split. Qed.

Lemma chargeInvoices_attempts_every_invoice_witness :
  exists (a : ActionsDone) (w' : World InMemory.State) (cs : list Call),
    chargeInvoices InMemory.ops Scenario.chargeWorld = (inr a, w') /\
    calls w' = calls Scenario.chargeWorld ++ mkCall OpCheckConnection true :: cs /\
    map op cs = map (fun i => OpChargeInvoice (billingInvoiceID i))
                    (result (BillingStorage.getInvoicesToPay (storage Scenario.chargeWorld))) /\
    inSuccess a = length (filter succeeded cs) /\
    inError a = length (filter failed cs) /\
    inSuccess a + inError a =
      length (result (BillingStorage.getInvoicesToPay (storage Scenario.chargeWorld))) /\
    storage w' = storage Scenario.chargeWorld.
Proof.
  apply (chargeInvoices_attempts_every_invoice InMemory.ops Scenario.chargeWorld
           (provider Scenario.chargeWorld)).
  reflexivity.
Defined.

(** ** One invoice of the sweep *)

Section InvoiceFacts.

Context {P : Type} (prov : BillingProvider P).

Lemma deleted_is_gone (l : list BillingInvoice) (id : string) :
  find (BillingStorage.hasBillingInvoiceID id)
       (filter (fun i => negb (BillingStorage.hasBillingInvoiceID id i)) l) = None.
Proof.
  induction l as [|i l IH]; simpl; [reflexivity|].
  destruct (BillingStorage.hasBillingInvoiceID id i) eqn:E; simpl; [exact IH|].
  rewrite E. exact IH.
Qed.

Lemma deleted_keeps_others (l : list BillingInvoice) (id other : string) :
  String.eqb other id = false ->
  find (BillingStorage.hasBillingInvoiceID other)
       (filter (fun i => negb (BillingStorage.hasBillingInvoiceID id i)) l) =
  find (BillingStorage.hasBillingInvoiceID other) l.
Proof.
  intros Hne. induction l as [|i l IH]; simpl; [reflexivity|].
  destruct (BillingStorage.hasBillingInvoiceID id i) eqn:E; simpl.
  - unfold BillingStorage.hasBillingInvoiceID in E. apply String.eqb_eq in E.
    assert (Hother : BillingStorage.hasBillingInvoiceID other i = false).
    { unfold BillingStorage.hasBillingInvoiceID. rewrite E, String.eqb_sym. exact Hne. }
    rewrite Hother. exact IH.
  - destruct (BillingStorage.hasBillingInvoiceID other i); [reflexivity | exact IH].
Qed.

(** C5: when the provider returns no invoice for an identifier of the
    sweep, the turn either deletes the local invoice stored under that
    provider key and goes on with [inSuccess] one higher, or, with no local
    invoice either, goes on with [inError] one higher. *)
Theorem syncInvoices_provider_invoice_absent
  (user : option User) (id : string) (ids : list string) (a : ActionsDone)
  (w : World P) (p1 : P) :
  getInvoice prov id (provider w) = (inr None, p1) ->
  let seen := calls w ++ [mkCall (OpGetInvoice id) true] in
  match BillingStorage.getInvoiceByBillingInvoiceID (storage w) id with
  | Some _ =>
      let s' := BillingStorage.deleteInvoiceByInvoiceID (storage w) id in
      syncInvoices prov user (id :: ids) a w =
        syncInvoices prov user ids (incSuccess a) (mkWorld s' p1 (clock w) seen) /\
      BillingStorage.getInvoiceByBillingInvoiceID s' id = None /\
      (forall other, String.eqb other id = false ->
         BillingStorage.getInvoiceByBillingInvoiceID s' other =
         BillingStorage.getInvoiceByBillingInvoiceID (storage w) other)
  | None =>
      syncInvoices prov user (id :: ids) a w =
        syncInvoices prov user ids (incError a) (mkWorld (storage w) p1 (clock w) seen)
  end.
Proof.
  intros Hget seen.
  destruct (BillingStorage.getInvoiceByBillingInvoiceID (storage w) id) as [local|] eqn:Hloc.
  - split; [|split].
    + cbn [syncInvoices]. unfold bind at 1, attempt, processInvoice.
      unfold bind at 1, call at 1. rewrite Hget.
      unfold bind at 1, readStorage at 1. cbn [storage]. rewrite Hloc.
      reflexivity.
    + apply deleted_is_gone.
    + intros other Hne. apply deleted_keeps_others. exact Hne.
  - cbn [syncInvoices]. unfold bind at 1, attempt, processInvoice.
    unfold bind at 1, call at 1. rewrite Hget.
    unfold bind at 1, readStorage at 1. cbn [storage]. rewrite Hloc.
    reflexivity.
Qed.

Lemma mustDownload_redownload (prior : option BillingInvoice) (inv : BillingInvoice)
  (owner : User) (n : N) :
  mustDownload prior (carryID (upserted prior inv owner) (Some n)) = redownload prior inv.
Proof.
  unfold mustDownload, redownload, upserted, priorDownloadable.
  destruct prior as [i|]; simpl; [|reflexivity].
  reflexivity.
Qed.

(** A turn that finds the provider's invoice and its owner: the invoice is
    upserted with the prior flag, the document is asked for when the policy
    says so, and the owner is stamped unless the download threw. *)
Lemma processInvoice_upsert (user : option User) (id : string) (w : World P) (p1 : P)
  (inv : BillingInvoice) (owner : User) :
  getInvoice prov id (provider w) = (inr (Some inv), p1) ->
  ownerOf user (storage w) inv = Some owner ->
  let prior := BillingStorage.getInvoiceByBillingInvoiceID (storage w) id in
  let saved := BillingStorage.saveInvoice (storage w) (upserted prior inv owner) in
  let i := carryID (upserted prior inv owner) (Some (fst saved)) in
  let seen := calls w ++ [mkCall (OpGetInvoice id) true] in
  let stamp := fun (w2 : World P) =>
    match billingData owner with
    | None => (inl (TypeError "Cannot set properties of undefined (setting 'invoicesLastSynchronizedOn')"), w2)
    | Some bd =>
        (inr (true, match user with
                    | Some _ => Some (withBillingData owner (Some (stampInvoiceSync bd (clock w2))))
                    | None => None
                    end),
         mkWorld (UserStorage.saveUserBillingData (storage w2) (user_id owner)
                    (Some (stampInvoiceSync bd (clock w2))))
                 (provider w2) (clock w2 + 1) (calls w2))
    end in
  processInvoice prov user id w =
    if redownload prior inv then
      match downloadInvoiceDocument prov i p1 with
      | (inl e, p2) =>
          (inl e, mkWorld (snd saved) p2 (clock w)
                    (seen ++ [mkCall (OpDownloadInvoiceDocument id) false]))
      | (inr None, p2) =>
          stamp (mkWorld (snd saved) p2 (clock w)
                   (seen ++ [mkCall (OpDownloadInvoiceDocument id) true]))
      | (inr (Some d), p2) =>
          stamp (mkWorld (snd (BillingStorage.saveInvoice
                                 (BillingStorage.saveInvoiceDocument (snd saved) d)
                                 (setDownloadable i true)))
                   p2 (clock w)
                   (seen ++ [mkCall (OpDownloadInvoiceDocument id) true]))
      end
    else stamp (mkWorld (snd saved) p1 (clock w) seen).
Proof.
  intros Hget Hown prior saved i seen stamp.
  assert (Hrun : forall k : option User -> M P (bool * option User),
            forall w1 : World P, storage w1 = storage w ->
            bind (match user with
                  | Some u => ret (Some u)
                  | None => readStorage (fun s => UserStorage.getUserByBillingID s
                              (inv_customerID match prior with
                                              | Some j => carryID inv (inv_id j)
                                              | None => inv
                                              end))
                  end) k w1 = k (Some owner) w1).
  { intros k w1 Hs. unfold ownerOf in Hown. destruct user as [u|].
    - injection Hown as ->. reflexivity.
    - unfold bind, readStorage. rewrite Hs.
      replace (inv_customerID match prior with
                              | Some j => carryID inv (inv_id j)
                              | None => inv
                              end) with (inv_customerID inv) by (destruct prior; reflexivity).
      rewrite Hown. reflexivity. }
  unfold processInvoice.
  unfold bind at 1, call at 1; rewrite Hget.
  unfold bind at 1, readStorage at 1; cbn [storage]. fold prior.
  cbv beta iota zeta.
  rewrite Hrun by reflexivity.
  change (setOwner match prior with
                   | Some j => carryID inv (inv_id j)
                   | None => inv
                   end owner match prior with
                             | Some j => downloadable j
                             | None => false
                             end) with (upserted prior inv owner).
  unfold bind at 1, saveInvoiceM at 1. cbn [storage provider clock calls].
  fold saved. destruct saved as [n s1] eqn:Hsaved. 
  rewrite mustDownload_redownload.
  subst i seen stamp. cbn [fst snd isOk].
  destruct (redownload prior inv).
  - unfold bind at 1. unfold bind at 1, call at 1. cbn [provider storage clock calls].
    destruct (downloadInvoiceDocument prov (carryID (upserted prior inv owner) (Some n)) p1)
      as [[e|[d|]] p2]; cbn [isOk].
    + reflexivity.
    + unfold bind at 1, writeStorage at 1. cbn [provider storage clock calls].
      unfold bind at 1, saveInvoiceM at 1. cbn [provider storage clock calls].
      destruct (BillingStorage.saveInvoice (BillingStorage.saveInvoiceDocument s1 d)
                  (setDownloadable (carryID (upserted prior inv owner) (Some n)) true))
        as [n2 s2].
      unfold ret at 1. cbn [snd].
      destruct (billingData owner); reflexivity.
    + unfold ret at 1. destruct (billingData owner); reflexivity.
  - unfold bind at 1, ret at 1. destruct (billingData owner); reflexivity.
Qed.

Lemma downloadsOf_app (id : string) (l1 l2 : list Call) :
  downloadsOf id (l1 ++ l2) = downloadsOf id l1 + downloadsOf id l2.
Proof. unfold downloadsOf. rewrite filter_app, length_app. reflexivity. Qed.

Lemma stamp_keeps_calls (owner : User) (user : option User) (w2 : World P) :
  calls (snd (match billingData owner with
              | None => (inl (TypeError "Cannot set properties of undefined (setting 'invoicesLastSynchronizedOn')"), w2)
              | Some bd =>
                  (inr (true, match user with
                              | Some _ => Some (withBillingData owner (Some (stampInvoiceSync bd (clock w2))))
                              | None => None
                              end),
                   mkWorld (UserStorage.saveUserBillingData (storage w2) (user_id owner)
                              (Some (stampInvoiceSync bd (clock w2))))
                           (provider w2) (clock w2 + 1) (calls w2))
              end : Res (bool * option User) * World P)) = calls w2.
Proof. destruct (billingData owner); reflexivity. Qed.

(** C3: in a turn that upserts a provider invoice, the document is asked
    for once when there was no prior local record, or the prior record was
    not downloadable, or its number of items differs from the provider's,
    and not at all otherwise. *)
Theorem download_attempted_exactly_when_due
  (user : option User) (id : string) (w : World P) (p1 : P)
  (inv : BillingInvoice) (owner : User) :
  getInvoice prov id (provider w) = (inr (Some inv), p1) ->
  ownerOf user (storage w) inv = Some owner ->
  let prior := BillingStorage.getInvoiceByBillingInvoiceID (storage w) id in
  downloadsOf id (calls (snd (processInvoice prov user id w))) =
  downloadsOf id (calls w) + (if redownload prior inv then 1 else 0).
Proof.
  intros Hget Hown prior.
  rewrite (processInvoice_upsert user id w p1 inv owner Hget Hown).
  fold prior. cbv zeta.
  assert (Hyes : downloadsOf id [mkCall (OpDownloadInvoiceDocument id) true] = 1
                 /\ downloadsOf id [mkCall (OpDownloadInvoiceDocument id) false] = 1).
  { unfold downloadsOf, isDownloadOf. simpl. rewrite String.eqb_refl. split; reflexivity. }
  destruct Hyes as [Hyes Hno].
  destruct (redownload prior inv).
  - destruct (downloadInvoiceDocument prov _ p1) as [[e|[d|]] p2];
      try rewrite stamp_keeps_calls; cbn [snd calls];
      rewrite !downloadsOf_app; first [rewrite Hyes | rewrite Hno];
      unfold downloadsOf at 2; simpl; lia.
  - rewrite stamp_keeps_calls. cbn [calls].
    rewrite downloadsOf_app. unfold downloadsOf at 2. simpl. lia.
Qed.

Lemma carryID_own (j : BillingInvoice) (n : N) :
  inv_id j = Some n -> carryID j (Some n) = j.
Proof. destruct j; simpl; intros ->; reflexivity. Qed.

(** What [saveInvoice] is given is then in the store, under the
    identifier [saveInvoice] returns. *)
Lemma saveInvoice_stores (s : Storage) (j : BillingInvoice) :
  In (carryID j (Some (fst (BillingStorage.saveInvoice s j))))
     (invoices (snd (BillingStorage.saveInvoice s j))).
Proof.
  unfold BillingStorage.saveInvoice.
  destruct (inv_id j) as [n|] eqn:Hid; cbn [fst snd invoices].
  - rewrite (carryID_own j n Hid).
    destruct (existsb (BillingStorage.hasID n) (invoices s)) eqn:Hex.
    + apply existsb_exists in Hex. destruct Hex as (x & Hin & Hx).
      apply in_map_iff. exists x. rewrite Hx. split; [reflexivity | exact Hin].
    + apply in_or_app. right. left. reflexivity.
  - apply in_or_app. right. left. reflexivity.
Qed.

(** The owner of an upserted invoice has billing data: it was found by its
    customer identifier, or it is the scoped user, whose identity the sweep
    has checked. *)
Lemma owner_has_billingData (user : option User) (s : Storage) (inv : BillingInvoice) (owner : User) :
  ownerOf user s inv = Some owner ->
  (forall u, user = Some u -> hasCustomerID (billingData u) = true) ->
  present (billingData owner) = true.
Proof.
  unfold ownerOf. destruct user as [u|]; intros Hown Hscoped.
  - injection Hown as <-. specialize (Hscoped u eq_refl).
    destruct (billingData u); [reflexivity | discriminate].
  - apply find_some in Hown. destruct Hown as [_ Hid].
    unfold UserStorage.hasBillingID in Hid.
    destruct (billingData owner); [reflexivity | discriminate].
Qed.

(** C4, as the code has it: in a turn that upserts a provider invoice and
    asks for its document (the scoped user, if any, being one whose
    identity the sweep has checked), the invoice is stored with the flag of
    the prior record ([false] without one).  When the download yields no
    document the sweep goes on with [inSuccess] one higher; when the
    download throws, the exception is caught at the turn's boundary and the
    sweep goes on with [inError] one higher.  In both cases the stored
    invoices are those left by the upsert. *)
Theorem download_absent_or_failed
  (user : option User) (id : string) (ids : list string) (a : ActionsDone)
  (w : World P) (p1 : P) (inv : BillingInvoice) (owner : User) :
  getInvoice prov id (provider w) = (inr (Some inv), p1) ->
  ownerOf user (storage w) inv = Some owner ->
  (forall u, user = Some u -> hasCustomerID (billingData u) = true) ->
  let prior := BillingStorage.getInvoiceByBillingInvoiceID (storage w) id in
  redownload prior inv = true ->
  let saved := BillingStorage.saveInvoice (storage w) (upserted prior inv owner) in
  let i := carryID (upserted prior inv owner) (Some (fst saved)) in
  In i (invoices (snd saved)) /\
  downloadable i = priorDownloadable prior /\
  match fst (downloadInvoiceDocument prov i p1) with
  | inr None =>
      exists user' w',
        syncInvoices prov user (id :: ids) a w = syncInvoices prov user' ids (incSuccess a) w' /\
        invoices (storage w') = invoices (snd saved)
  | inl _ =>
      exists w',
        syncInvoices prov user (id :: ids) a w = syncInvoices prov user ids (incError a) w' /\
        invoices (storage w') = invoices (snd saved)
  | inr (Some _) => True
  end.
Proof.
  intros Hget Hown Hscoped prior Hre saved i.
  pose proof (owner_has_billingData user (storage w) inv owner Hown Hscoped) as Hbd.
  split; [apply saveInvoice_stores|]. split; [reflexivity|].
  assert (Hturn : syncInvoices prov user (id :: ids) a w =
                  match processInvoice prov user id w with
                  | (inr (true, user'), w1) => syncInvoices prov user' ids (incSuccess a) w1
                  | (inr (false, user'), w1) => syncInvoices prov user' ids (incError a) w1
                  | (inl _, w1) => syncInvoices prov user ids (incError a) w1
                  end).
  { cbn [syncInvoices]. unfold bind, attempt.
    destruct (processInvoice prov user id w) as [[e|[[|] u']] w1]; reflexivity. }
  rewrite Hturn.
  rewrite (processInvoice_upsert user id w p1 inv owner Hget Hown).
  fold prior. cbv zeta. fold saved. fold i. rewrite Hre.
  destruct (downloadInvoiceDocument prov i p1) as [[e|[d|]] p2]; cbn [fst].
  - eexists. split; reflexivity.
  - exact I.
  - destruct (billingData owner) as [bd|]; [|discriminate].
    do 2 eexists. split; reflexivity.
Qed.

End InvoiceFacts.

(** The whole unscoped sweep over the six invoices of the scenario. *)
Example synchronizeInvoices_six :
  fst (synchronizeInvoices InMemory.ops None
         (Scenario.invoiceWorld ["in_1"; "in_2"; "in_3"; "in_4"; "in_5"; "in_6"])) =
  inr {| inSuccess := 4; inError := 2 |}.
Proof. reflexivity. Qed.

Lemma syncInvoices_provider_invoice_absent_witness :
  syncInvoices InMemory.ops None ["in_5"] noActions (Scenario.invoiceWorld ["in_5"]) =
    (inr {| inSuccess := 1; inError := 0 |},
     mkWorld (BillingStorage.deleteInvoiceByInvoiceID Scenario.invoiceStorage "in_5")
             (Scenario.invoiceProvider ["in_5"]) 1000
             [mkCall (OpGetInvoice "in_5") true]) /\
  BillingStorage.getInvoiceByBillingInvoiceID
    (BillingStorage.deleteInvoiceByInvoiceID Scenario.invoiceStorage "in_5") "in_5" = None /\
  syncInvoices InMemory.ops None ["in_6"] noActions (Scenario.invoiceWorld ["in_6"]) =
    (inr {| inSuccess := 0; inError := 1 |},
     mkWorld Scenario.invoiceStorage (Scenario.invoiceProvider ["in_6"]) 1000
             [mkCall (OpGetInvoice "in_6") true]).
Proof.
  pose proof (syncInvoices_provider_invoice_absent InMemory.ops None "in_5" [] noActions
                (Scenario.invoiceWorld ["in_5"]) (Scenario.invoiceProvider ["in_5"])
                eq_refl) as H5.
  pose proof (syncInvoices_provider_invoice_absent InMemory.ops None "in_6" [] noActions
                (Scenario.invoiceWorld ["in_6"]) (Scenario.invoiceProvider ["in_6"])
                eq_refl) as H6.
  cbv zeta in H5, H6.
  change (BillingStorage.getInvoiceByBillingInvoiceID
            (storage (Scenario.invoiceWorld ["in_5"])) "in_5")
    with (Some (Scenario.invoiceOf 8 "in_5" OPEN)) in H5.
  change (BillingStorage.getInvoiceByBillingInvoiceID
            (storage (Scenario.invoiceWorld ["in_6"])) "in_6")
    with (@None BillingInvoice) in H6.
  destruct H5 as (H5 & Hgone & _).
  split; [exact H5|]. split; [exact Hgone|]. exact H6.
Defined.

Lemma download_attempted_exactly_when_due_witness :
  downloadsOf "in_1" (calls (snd (processInvoice InMemory.ops None "in_1"
                                    (Scenario.invoiceWorld ["in_1"])))) = 1 /\
  downloadsOf "in_2" (calls (snd (processInvoice InMemory.ops None "in_2"
                                    (Scenario.invoiceWorld ["in_2"])))) = 0.
Proof.
  split.
  - apply (download_attempted_exactly_when_due InMemory.ops None "in_1"
             (Scenario.invoiceWorld ["in_1"]) (Scenario.invoiceProvider ["in_1"])
             (Scenario.fromProvider "in_1" 3) Scenario.alice); reflexivity.
  - apply (download_attempted_exactly_when_due InMemory.ops None "in_2"
             (Scenario.invoiceWorld ["in_2"]) (Scenario.invoiceProvider ["in_2"])
             (Scenario.fromProvider "in_2" 2) Scenario.alice); reflexivity.
Defined.

(** C4 fails where the download throws: the provider holds [in_3], there
    is no local record of it, its owner is known and has billing data, the
    document is asked for and the call throws; the sweep returns the item
    in [inError], not in [inSuccess]. *)
Lemma failed_download_is_an_item_error :
  let w := Scenario.invoiceWorld ["in_3"] in
  fst (getInvoice InMemory.ops "in_3" (provider w)) = inr (Some (Scenario.fromProvider "in_3" 1)) /\
  BillingStorage.getInvoiceByBillingInvoiceID (storage w) "in_3" = None /\
  calls (snd (synchronizeInvoices InMemory.ops None w)) =
    [ mkCall OpCheckConnection true; mkCall (OpGetUpdatedInvoiceIDsInBilling false) true;
      mkCall (OpGetInvoice "in_3") true; mkCall (OpDownloadInvoiceDocument "in_3") false ] /\
  fst (synchronizeInvoices InMemory.ops None w) = inr {| inSuccess := 0; inError := 1 |} /\
  fst (synchronizeInvoices InMemory.ops None w) <> inr {| inSuccess := 1; inError := 0 |}.
Proof. repeat split. discriminate. Qed.
(** ** Frame rules

    [keeps R] goes through the constructs of the monad for any reflexive
    and transitive [R]. *)

Section FrameRules.

Context {P : Type} (R : World P -> World P -> Prop).
Hypothesis R_refl : forall w, R w w.
Hypothesis R_trans : forall w1 w2 w3, R w1 w2 -> R w2 w3 -> R w1 w3.

Lemma keeps_ret {A} (a : A) : keeps R (ret a).
Proof. intros w. apply R_refl. Qed.

Lemma keeps_throw {A} (e : error) : keeps R (@throw P A e).
Proof. intros w. apply R_refl. Qed.

Lemma keeps_bind {A B} (m : M P A) (k : A -> M P B) :
  keeps R m -> (forall a, keeps R (k a)) -> keeps R (bind m k).
Proof.
  intros Hm Hk w. unfold bind. specialize (Hm w).
  destruct (m w) as [[e|a] w1]; simpl in *; [exact Hm|].
  eapply R_trans; [exact Hm | apply Hk].
Qed.

Lemma keeps_attempt {A} (m : M P A) : keeps R m -> keeps R (attempt m).
Proof.
  intros Hm w. unfold attempt. specialize (Hm w).
  destruct (m w) as [r w1]. exact Hm.
Qed.

End FrameRules.

(** The primitive steps leave the billing settings alone, the write of
    the settings apart. *)

Section SettingsFrame.

Context {P : Type} (prov : BillingProvider P).

Lemma settingsKept_refl (w : World P) : settingsKept w w.
Proof. split; [reflexivity | lia]. Qed.

Lemma settingsKept_trans (w1 w2 w3 : World P) :
  settingsKept w1 w2 -> settingsKept w2 w3 -> settingsKept w1 w3.
Proof. intros [H1 L1] [H2 L2]. split; [congruence | lia]. Qed.

Lemma settingsKept_call {A} (o : Op) (f : P -> Res A * P) : keeps settingsKept (call o f).
Proof.
  intros w. unfold call. destruct (f (provider w)). split; simpl; [reflexivity | lia].
Qed.

Lemma settingsKept_read {A} (f : Storage -> A) : keeps (P := P) settingsKept (readStorage f).
Proof. intros w. apply settingsKept_refl. Qed.

Lemma settingsKept_write (f : Storage -> Storage) :
  (forall s, billingSettings (f s) = billingSettings s) ->
  keeps (P := P) settingsKept (writeStorage f).
Proof. intros Hf w. split; simpl; [apply Hf | lia]. Qed.

Lemma settingsKept_newDate : keeps (P := P) settingsKept newDate.
Proof. intros w. split; simpl; [reflexivity | lia]. Qed.

Lemma settingsKept_saveInvoice (i : BillingInvoice) : keeps (P := P) settingsKept (saveInvoiceM i).
Proof.
  intros w. unfold saveInvoiceM, BillingStorage.saveInvoice.
  destruct (inv_id i); split; simpl; try reflexivity; lia.
Qed.

End SettingsFrame.

Ltac settings_frame :=
  repeat first
    [ apply settingsKept_call
    | apply settingsKept_read
    | apply settingsKept_newDate
    | apply settingsKept_saveInvoice
    | apply settingsKept_write; intros ?; reflexivity
    | apply keeps_bind; [apply settingsKept_trans | | intros ?]
    | apply keeps_ret; apply settingsKept_refl
    | apply keeps_throw; apply settingsKept_refl
    | apply keeps_attempt
    | match goal with
      | |- keeps _ (match ?x with _ => _ end) => destruct x
      end ].

(** ** The invoice sweep *)

Section InvoiceSweepFacts.

Context {P : Type} (prov : BillingProvider P).

Lemma processInvoice_settingsKept (user : option User) (id : string) :
  keeps settingsKept (processInvoice prov user id).
Proof. unfold processInvoice. settings_frame. Qed.


Lemma syncInvoices_settingsKept (ids : list string) :
  forall user a, keeps settingsKept (syncInvoices prov user ids a).
Proof.
  induction ids as [|id ids IH]; intros user a; cbn [syncInvoices].
  - apply keeps_ret, settingsKept_refl.
  - apply keeps_bind; [apply settingsKept_trans | | intros r].
    + apply keeps_attempt, processInvoice_settingsKept.
    + destruct r as [e|[[|] u']]; apply IH.
Qed.

Lemma syncInvoices_returns (ids : list string) :
  forall user a w, isOk (fst (syncInvoices prov user ids a w)) = true.
Proof.
  induction ids as [|id ids IH]; intros user a w; cbn [syncInvoices].
  - reflexivity.
  - unfold bind, attempt.
    destruct (processInvoice prov user id w) as [[e|[[|] u']] w1]; apply IH.
Qed.

Lemma checkAndGetBillingUser_settingsKept (u : User) :
  keeps settingsKept (checkAndGetBillingUser prov u).
Proof.
  unfold checkAndGetBillingUser. settings_frame.
Qed.

Lemma scoped_sweep_settingsKept (u : User) :
  keeps settingsKept (synchronizeInvoices prov (Some u)).
Proof.
  unfold synchronizeInvoices.
  apply keeps_bind; [apply settingsKept_trans | apply settingsKept_call | intros _].
  apply keeps_bind; [apply settingsKept_trans | | intros b].
  { apply keeps_bind; [apply settingsKept_trans | apply checkAndGetBillingUser_settingsKept |].
    intros b. apply keeps_ret, settingsKept_refl. }
  apply keeps_bind; [apply settingsKept_trans | | intros ids].
  { destruct b; settings_frame. }
  apply keeps_bind; [apply settingsKept_trans | | intros a].
  { destruct ids as [ids|]; [|apply keeps_ret, settingsKept_refl].
    destruct (0 <? length ids)%nat; [apply syncInvoices_settingsKept|].
    apply keeps_ret, settingsKept_refl. }
  settings_frame.
Qed.

(** C7: an unscoped sweep that gets its list of changed invoices returns
    a tally and leaves the tenant's invoice watermark at the date it read
    when the loop was over, whatever the tally; a sweep scoped to a user
    leaves the billing settings, and so the watermark, as they were,
    whether it returns or throws. *)
Theorem invoice_watermark_only_by_unscoped_sweep :
  (forall (w : World P) (p1 p2 : P) (ids : option (list string)),
     checkConnection prov (provider w) = (inr tt, p1) ->
     getUpdatedInvoiceIDsInBilling prov None p1 = (inr ids, p2) ->
     exists (a : ActionsDone) (w' : World P) (t : Z),
       synchronizeInvoices prov None w = (inr a, w') /\
       invoicesLastSynchronizedOn_global (billingSettings (storage w')) = Some t /\
       (clock w <= t)%Z /\ clock w' = (t + 1)%Z /\
       usersLastSynchronizedOn (billingSettings (storage w')) =
       usersLastSynchronizedOn (billingSettings (storage w))) /\
  (forall (u : User) (w : World P),
     billingSettings (storage (snd (synchronizeInvoices prov (Some u) w))) =
     billingSettings (storage w)).
Proof.
  split.
  - intros w p1 p2 ids Hc Hids.
    unfold synchronizeInvoices.
    unfold bind at 1, call at 1. rewrite Hc.
    unfold bind at 1, ret at 1.
    unfold bind at 1, call at 1. cbn [provider storage clock calls]. rewrite Hids.
    set (w2 := mkWorld (storage w) p2 (clock w) _).
    set (loop := match ids with
                 | Some l => if (0 <? length l)%nat then syncInvoices prov None l noActions
                             else ret noActions
                 | None => ret noActions
                 end).
    assert (Hloop : isOk (fst (loop w2)) = true /\ settingsKept w2 (snd (loop w2))).
    { subst loop. destruct ids as [l|]; [|split; [reflexivity | apply settingsKept_refl]].
      destruct (0 <? length l)%nat; [|split; [reflexivity | apply settingsKept_refl]].
      split; [apply syncInvoices_returns | apply syncInvoices_settingsKept]. }
    destruct Hloop as [Hok [Hset Hclock]].
    unfold bind at 1. destruct (loop w2) as [[e|a] w3]; [discriminate|].
    cbn [fst snd] in *.
    exists a. eexists. exists (clock w3).
    split; [reflexivity|]. cbn.
    subst w2. cbn in Hset, Hclock.
    repeat split; try lia.
    unfold SettingStorage.getBillingSettings. rewrite Hset. reflexivity.
  - intros u w. apply scoped_sweep_settingsKept.
Qed.

Lemma filter_other_call (l : list Call) (c : Call) :
  isInvoiceCall c = false -> filter isInvoiceCall (l ++ [c]) = filter isInvoiceCall l.
Proof. intros H. rewrite filter_app. simpl. rewrite H. apply app_nil_r. Qed.

Lemma identityMismatch_throws (u : User) (bu : option BillingUser) (w : World P) :
  identityMismatch u bu = true ->
  exists m,
    match bu with
    | None => throw (BackendError "User does not exist in billing system")
    | Some billingUser =>
        if negb (hasCustomerID (bu_billingData billingUser)) then
          throw (BackendError "User has no billing data in billing system")
        else if negb (hasCustomerID (billingData u)) then
          throw (BackendError "User has no billing data in e-Mobility")
        else if negb (sameCustomerID (customerIDOf (billingData u))
                                     (customerIDOf (bu_billingData billingUser))) then
          throw (BackendError "User has not the billing data in e-Mobility and in the billing system")
        else ret billingUser
    end w = (inl (BackendError m), w).
Proof.
  unfold identityMismatch. destruct bu as [b|]; [|intros _; eexists; reflexivity].
  destruct (negb (hasCustomerID (bu_billingData b))); [intros _; eexists; reflexivity|].
  destruct (negb (hasCustomerID (billingData u))); [intros _; eexists; reflexivity|].
  destruct (negb (sameCustomerID _ _)); [intros _; eexists; reflexivity|].
  discriminate.
Qed.

(** C6: a sweep scoped to a user whose billing identity does not check
    (no provider customer for the e-mail address, a provider customer
    without billing data or customer identifier, a local user without
    billing data or customer identifier, or two different customer
    identifiers) throws to its caller: it returns no tally, asks the
    provider for no invoice, no list of invoices and no document, and
    leaves storage as it was.  When the connection check and the customer
    lookup themselves pass, what is thrown is the precondition error. *)
Theorem scoped_sweep_identity_mismatch_is_fatal (u : User) (w : World P) :
  let w1 := snd (call OpCheckConnection (checkConnection prov) w) in
  (forall bu, fst (getUserByEmail prov (email u) (provider w1)) = inr bu ->
              identityMismatch u bu = true) ->
  let r := synchronizeInvoices prov (Some u) w in
  isOk (fst r) = false /\
  storage (snd r) = storage w /\
  filter isInvoiceCall (calls (snd r)) = filter isInvoiceCall (calls w) /\
  (isOk (fst (checkConnection prov (provider w))) = true ->
   isOk (fst (getUserByEmail prov (email u) (provider w1))) = true ->
   isBackendError (fst r) = true).
Proof.
  intros w1 Hmis r. subst r w1.
  destruct (synchronizeInvoices prov (Some u) w) as [r w'] eqn:Hrun.
  unfold synchronizeInvoices in Hrun. unfold bind at 1 in Hrun.
  unfold call at 1 in Hmis. unfold call at 1 in Hrun. unfold call at 1.
  destruct (checkConnection prov (provider w)) as [[e|[]] p1]; cbn [isOk fst snd] in *.
  - injection Hrun as <- <-. cbn [calls storage isOk].
    rewrite filter_other_call by reflexivity.
    repeat split. discriminate.
  - cbn [provider] in Hmis |- *.
    unfold bind at 1 in Hrun. unfold bind at 1 in Hrun.
    unfold checkAndGetBillingUser in Hrun.
    unfold bind at 1, call at 1 in Hrun. cbn [provider storage clock calls] in Hrun.
    destruct (getUserByEmail prov (email u) p1) as [[e|bu] p2]; cbn [isOk fst snd] in *.
    + cbv beta iota in Hrun. injection Hrun as <- <-. cbn [calls storage isOk].
      rewrite !filter_other_call by reflexivity.
      repeat split. intros _. discriminate.
    + specialize (Hmis bu eq_refl).
      destruct (identityMismatch_throws u bu
                  (mkWorld (storage w) p2 (clock w)
                     ((calls w ++ [mkCall OpCheckConnection true])
                        ++ [mkCall (OpGetUserByEmail (email u)) true])) Hmis) as [m Hm].
      rewrite Hm in Hrun. cbv beta iota in Hrun. injection Hrun as <- <-.
      cbn [calls storage fst snd isOk isBackendError].
      rewrite !filter_other_call by reflexivity.
      repeat split.
Qed.

End InvoiceSweepFacts.

Lemma download_absent_or_failed_witness :
  (exists user' w',
     syncInvoices InMemory.ops None ["in_4"] noActions (Scenario.invoiceWorld ["in_4"]) =
       syncInvoices InMemory.ops user' [] (incSuccess noActions) w' /\
     find (BillingStorage.hasBillingInvoiceID "in_4") (invoices (storage w')) =
       Some (carryID (upserted None (Scenario.fromProvider "in_4" 1) Scenario.alice) (Some 9%N))) /\
  (exists w',
     syncInvoices InMemory.ops None ["in_3"] noActions (Scenario.invoiceWorld ["in_3"]) =
       syncInvoices InMemory.ops None [] (incError noActions) w' /\
     find (BillingStorage.hasBillingInvoiceID "in_3") (invoices (storage w')) =
       Some (carryID (upserted None (Scenario.fromProvider "in_3" 1) Scenario.alice) (Some 9%N))).
Proof.
  assert (Hs : forall u, @None User = Some u -> hasCustomerID (billingData u) = true)
    by (intros u Hu; discriminate Hu).
  pose proof (download_absent_or_failed InMemory.ops None "in_4" [] noActions
                (Scenario.invoiceWorld ["in_4"]) (Scenario.invoiceProvider ["in_4"])
                (Scenario.fromProvider "in_4" 1) Scenario.alice
                eq_refl eq_refl Hs eq_refl) as H4.
  pose proof (download_absent_or_failed InMemory.ops None "in_3" [] noActions
                (Scenario.invoiceWorld ["in_3"]) (Scenario.invoiceProvider ["in_3"])
                (Scenario.fromProvider "in_3" 1) Scenario.alice
                eq_refl eq_refl Hs eq_refl) as H3.
  cbv zeta in H4, H3.
  destruct H4 as (_ & _ & H4). destruct H3 as (_ & _ & H3).
  split.
  - destruct H4 as (user' & w' & Hrun & Hinv).
    exists user', w'. split; [exact Hrun|]. rewrite Hinv. reflexivity.
  - destruct H3 as (w' & Hrun & Hinv).
    exists w'. split; [exact Hrun|]. rewrite Hinv. reflexivity.
Defined.

Lemma scoped_sweep_identity_mismatch_is_fatal_witness :
  let r := synchronizeInvoices InMemory.ops (Some Scenario.stranger)
             (Scenario.invoiceWorld ["in_1"; "in_2"]) in
  isOk (fst r) = false /\
  storage (snd r) = Scenario.invoiceStorage /\
  filter isInvoiceCall (calls (snd r)) = [] /\
  isBackendError (fst r) = true.
Proof.
  pose proof (scoped_sweep_identity_mismatch_is_fatal InMemory.ops Scenario.stranger
                (Scenario.invoiceWorld ["in_1"; "in_2"])) as H.
  cbv zeta in H.
  assert (Hmis : forall bu,
             fst (getUserByEmail InMemory.ops (email Scenario.stranger)
                    (provider (snd (call OpCheckConnection (checkConnection InMemory.ops)
                                      (Scenario.invoiceWorld ["in_1"; "in_2"]))))) = inr bu ->
             identityMismatch Scenario.stranger bu = true).
  { intros bu Hbu. injection Hbu as <-. reflexivity. }
  destruct (H Hmis) as (H1 & H2 & H3 & H4).
  cbv zeta. split; [exact H1|]. split; [exact H2|]. split; [exact H3|].
  apply H4; reflexivity.
Defined.

Lemma invoice_watermark_only_by_unscoped_sweep_witness :
  exists (a : ActionsDone) (w' : World InMemory.State) (t : Z),
    synchronizeInvoices InMemory.ops None (Scenario.invoiceWorld ["in_1"; "in_3"]) = (inr a, w') /\
    invoicesLastSynchronizedOn_global (billingSettings (storage w')) = Some t /\
    (1000 <= t)%Z /\ clock w' = (t + 1)%Z /\
    usersLastSynchronizedOn (billingSettings (storage w')) = Some 500%Z.
Proof.
  apply (proj1 (invoice_watermark_only_by_unscoped_sweep InMemory.ops)
           (Scenario.invoiceWorld ["in_1"; "in_3"])
           (Scenario.invoiceProvider ["in_1"; "in_3"])
           (Scenario.invoiceProvider ["in_1"; "in_3"])
           (Some ["in_1"; "in_3"])); reflexivity.
Defined.

(** The same scenario run: one invoice synchronized, one in error, and
    the watermark moved from 500 to the date read after the loop. *)
Example unscoped_sweep_moves_watermark :
  fst (synchronizeInvoices InMemory.ops None (Scenario.invoiceWorld ["in_1"; "in_3"])) =
    inr {| inSuccess := 1; inError := 1 |} /\
  billingSettings (storage (snd (synchronizeInvoices InMemory.ops None
                                   (Scenario.invoiceWorld ["in_1"; "in_3"])))) =
    {| usersLastSynchronizedOn := Some 500%Z;
       invoicesLastSynchronizedOn_global := Some 1001%Z |}.
Proof. split; reflexivity. Qed.

(** ** The user sweep *)

Section UserCalls.

Context {P : Type} (prov : BillingProvider P).

(** The provider calls of [synchronizeUser]: [userExists], then
    [createUser] on the answer [false], [updateUser] on the answer [true],
    and nothing when [userExists] throws. *)
Lemma synchronizeUser_calls (u : User) (w : World P) :
  exists cs, calls (snd (synchronizeUser prov u w)) = calls w ++ cs /\
    match fst (userExists prov u (provider w)) with
    | inl _ => cs = [mkCall (OpUserExists (user_id u)) false]
    | inr false => map op cs = [OpUserExists (user_id u); OpCreateUser (user_id u)]
    | inr true => map op cs = [OpUserExists (user_id u); OpUpdateUser (user_id u)]
    end.
Proof.
  unfold synchronizeUser.
  unfold bind at 1, call at 1.
  destruct (userExists prov u (provider w)) as [[e|b] p1]; cbn [fst snd isOk calls].
  - eexists. split; reflexivity.
  - unfold bind at 1. destruct b; cbn [negb]; unfold call at 1;
      cbn [provider storage clock calls].
    + destruct (updateUser prov u p1) as [[e|nu] p2]; cbn;
        rewrite <- app_assoc; eexists; split; reflexivity.
    + destruct (createUser prov u p1) as [[e|nu] p2]; cbn;
        rewrite <- app_assoc; eexists; split; reflexivity.
Qed.

End UserCalls.

Section UserSweepFacts.

Context {P : Type} (prov : BillingProvider P) (customersOf : P -> list string).
Hypothesis contract : UserContract prov customersOf.

Local Abbreviation R := (noSecondCustomer customersOf).

Lemma noSecondCustomer_refl (w : World P) : R w w.
Proof. intros H. exact H. Qed.

Lemma noSecondCustomer_trans (w1 w2 w3 : World P) : R w1 w2 -> R w2 w3 -> R w1 w3.
Proof. intros H12 H23 H. apply H23, H12, H. Qed.

Lemma noSecondCustomer_call {A} (o : Op) (f : P -> Res A * P) :
  (forall p, customersOf (snd (f p)) = customersOf p) -> keeps R (call o f).
Proof.
  intros Hf w H. unfold call. specialize (Hf (provider w)).
  destruct (f (provider w)) as [r p']. simpl in *. rewrite Hf. exact H.
Qed.

Lemma noSecondCustomer_read {A} (f : Storage -> A) : keeps R (readStorage f).
Proof. intros w. apply noSecondCustomer_refl. Qed.

Lemma noSecondCustomer_write (f : Storage -> Storage) : keeps R (writeStorage f).
Proof. intros w H. exact H. Qed.

Lemma noSecondCustomer_newDate : keeps R newDate.
Proof. intros w H. exact H. Qed.

Lemma existsb_eqb_In (x : string) (l : list string) :
  existsb (String.eqb x) l = false -> ~ In x l.
Proof.
  intros Hex Hin.
  assert (Ht : existsb (String.eqb x) l = true).
  { apply existsb_exists. exists x. split; [exact Hin | apply String.eqb_refl]. }
  congruence.
Qed.

(** [synchronizeUser] creates a customer only for a key that has none. *)
Lemma synchronizeUser_noSecondCustomer (u : User) : keeps R (synchronizeUser prov u).
Proof.
  intros w Hnd. unfold synchronizeUser.
  unfold bind at 1, call at 1.
  pose proof (exists_answer prov customersOf contract u (provider w)) as Hans.
  pose proof (exists_keeps prov customersOf contract u (provider w)) as Hkeep.
  destruct (userExists prov u (provider w)) as [[e|b] p1]; cbn [fst snd isOk provider] in *.
  - rewrite Hkeep. exact Hnd.
  - specialize (Hans b eq_refl).
    unfold bind at 1. destruct b; cbn [negb].
    + unfold call at 1. cbn [provider storage clock calls].
      pose proof (update_keeps prov customersOf contract u p1) as Hup.
      destruct (updateUser prov u p1) as [[e|nu] p2]; cbn in *;
        rewrite Hup, Hkeep; exact Hnd.
    + unfold call at 1. cbn [provider storage clock calls].
      pose proof (create_adds prov customersOf contract u p1) as Hcr.
      destruct (createUser prov u p1) as [[e|nu] p2]; cbn in *.
      * apply (Permutation_NoDup (Permutation_sym Hcr)). rewrite Hkeep. exact Hnd.
      * apply (Permutation_NoDup (Permutation_sym Hcr)). rewrite Hkeep.
        constructor; [|exact Hnd].
        apply existsb_eqb_In. symmetry. exact Hans.
Qed.

Lemma syncNewUsers_noSecondCustomer (l : list User) :
  forall a, keeps R (syncNewUsers prov l a).
Proof.
  induction l as [|u l IH]; intros a; cbn [syncNewUsers].
  - apply keeps_ret, noSecondCustomer_refl.
  - apply keeps_bind; [apply noSecondCustomer_trans | | intros r].
    + apply keeps_attempt, synchronizeUser_noSecondCustomer.
    + destruct r; apply IH.
Qed.

Lemma syncChangedUsers_noSecondCustomer (ids : list string) :
  forall a, keeps R (syncChangedUsers prov ids a).
Proof.
  induction ids as [|id ids IH]; intros a; cbn [syncChangedUsers].
  - apply keeps_ret, noSecondCustomer_refl.
  - apply keeps_bind; [apply noSecondCustomer_trans | apply noSecondCustomer_read | intros user].
    destruct user as [user|]; [|apply IH].
    apply keeps_bind; [apply noSecondCustomer_trans | | intros bu].
    + apply noSecondCustomer_call. apply (getUser_keeps prov customersOf contract).
    + destruct bu as [bu|].
      * apply keeps_bind; [apply noSecondCustomer_trans | | intros r].
        -- apply keeps_attempt, synchronizeUser_noSecondCustomer.
        -- destruct r; apply IH.
      * destruct (billingData user); [|apply keeps_throw, noSecondCustomer_refl].
        apply keeps_bind; [apply noSecondCustomer_trans | apply noSecondCustomer_write |].
        intros _. apply IH.
Qed.

Lemma synchronizeUsers_noSecondCustomer : keeps R (synchronizeUsers prov).
Proof.
  unfold synchronizeUsers.
  apply keeps_bind; [apply noSecondCustomer_trans | | intros _].
  { apply noSecondCustomer_call, (check_keeps prov customersOf contract). }
  apply keeps_bind; [apply noSecondCustomer_trans | apply noSecondCustomer_read | intros inErr].
  cbv zeta.
  apply keeps_bind; [apply noSecondCustomer_trans | apply noSecondCustomer_read | intros new].
  apply keeps_bind; [apply noSecondCustomer_trans | | intros a].
  { destruct (count new >? 0)%Z; [apply syncNewUsers_noSecondCustomer|].
    apply keeps_ret, noSecondCustomer_refl. }
  apply keeps_bind; [apply noSecondCustomer_trans | | intros ids].
  { apply noSecondCustomer_call, (changed_keeps prov customersOf contract). }
  apply keeps_bind; [apply noSecondCustomer_trans | | intros a'].
  { destruct (0 <? length ids)%nat; [apply syncChangedUsers_noSecondCustomer|].
    apply keeps_ret, noSecondCustomer_refl. }
  apply keeps_bind; [apply noSecondCustomer_trans | apply noSecondCustomer_read | intros b].
  apply keeps_bind; [apply noSecondCustomer_trans | apply noSecondCustomer_newDate | intros now].
  apply keeps_bind; [apply noSecondCustomer_trans | apply noSecondCustomer_write | intros _].
  apply keeps_ret, noSecondCustomer_refl.
Qed.

(** C9: [synchronizeUser] asks [userExists] first, calls [createUser]
    only on the answer [false] and [updateUser] on the answer [true]; so,
    against a provider that answers [userExists] by the customers it holds,
    two sweeps in a row (and the two loops of one sweep) leave no
    correlating key with a second customer. *)
Theorem sweeps_create_no_second_customer :
  (forall (u : User) (w : World P),
     exists cs, calls (snd (synchronizeUser prov u w)) = calls w ++ cs /\
       match fst (userExists prov u (provider w)) with
       | inl _ => cs = [mkCall (OpUserExists (user_id u)) false]
       | inr false => map op cs = [OpUserExists (user_id u); OpCreateUser (user_id u)]
       | inr true => map op cs = [OpUserExists (user_id u); OpUpdateUser (user_id u)]
       end) /\
  (forall w : World P,
     NoDup (customersOf (provider w)) ->
     let w1 := snd (synchronizeUsers prov w) in
     let w2 := snd (synchronizeUsers prov w1) in
     NoDup (customersOf (provider w1)) /\ NoDup (customersOf (provider w2))).
Proof.
  split.
  - apply synchronizeUser_calls.
  - intros w Hnd w1 w2.
    assert (H1 : NoDup (customersOf (provider w1))).
    { apply (synchronizeUsers_noSecondCustomer w), Hnd. }
    split; [exact H1|].
    apply (synchronizeUsers_noSecondCustomer w1), H1.
Qed.

End UserSweepFacts.

Section UserSweepScenario.

Context {P : Type} (prov : BillingProvider P).

Lemma synchronizeUser_settingsKept (u : User) : keeps settingsKept (synchronizeUser prov u).
Proof. unfold synchronizeUser. settings_frame. Qed.

Lemma syncNewUsers_two (u1 u2 : User) (a : ActionsDone) (w : World P) :
  let r1 := synchronizeUser prov u1 w in
  let r2 := synchronizeUser prov u2 (snd r1) in
  syncNewUsers prov [u1; u2] a w =
  (inr {| inSuccess := inSuccess a + (if isOk (fst r1) then 1 else 0)
                                   + (if isOk (fst r2) then 1 else 0);
          inError := inError a + (if isOk (fst r1) then 0 else 1)
                               + (if isOk (fst r2) then 0 else 1) |},
   snd r2).
Proof.
  cbv zeta. cbn [syncNewUsers]. unfold bind, attempt, ret.
  destruct (synchronizeUser prov u1 w) as [[e1|[]] w1]; cbn [fst snd isOk];
    destruct (synchronizeUser prov u2 w1) as [[e2|[]] w2]; cbn [fst snd isOk];
    destruct a as [s e]; cbn [inSuccess inError incSuccess incError];
    rewrite ?Nat.add_0_r, ?Nat.add_1_r; reflexivity.
Qed.

(** C2, as the code has it: storage reports three users in billing-sync
    error and two users never synchronized, the connection check passes,
    synchronizing one of the two succeeds and the other fails, and the
    provider reports no customer changed since the last sweep.  Then the
    sweep returns [{inSuccess: 1, inError: 4}] and leaves the users'
    watermark at the date it read at the end. *)
Theorem synchronizeUsers_three_in_error_two_new
  (w : World P) (p1 : P) (u1 u2 : User) :
  checkConnection prov (provider w) = (inr tt, p1) ->
  length (result (UserStorage.getUsersInError (storage w))) = 3 ->
  result (UserStorage.getUsers (storage w)) = [u1; u2] ->
  let w1 := mkWorld (storage w) p1 (clock w) (calls w ++ [mkCall OpCheckConnection true]) in
  let r1 := synchronizeUser prov u1 w1 in
  let r2 := synchronizeUser prov u2 (snd r1) in
  xorb (isOk (fst r1)) (isOk (fst r2)) = true ->
  fst (getUpdatedUserIDsInBilling prov (provider (snd r2))) = inr [] ->
  exists (w' : World P) (t : Z),
    synchronizeUsers prov w = (inr {| inSuccess := 1; inError := 4 |}, w') /\
    usersLastSynchronizedOn (billingSettings (storage w')) = Some t /\
    (clock w <= t)%Z.
Proof.
  intros Hc Herr Hnew w1 r1 r2 Hone Hchanged.
  unfold synchronizeUsers.
  unfold bind at 1, call at 1. rewrite Hc. fold w1.
  unfold bind at 1, readStorage at 1. cbn [storage]. rewrite Herr.
  unfold bind at 1, readStorage at 1. cbn [storage].
  unfold UserStorage.getUsers in Hnew |- *. cbn [count result] in Hnew |- *.
  rewrite Hnew. cbn [length Z.of_nat].
  change (Z.pos (Pos.of_succ_nat 1) >? 0)%Z with true. cbv iota.
  unfold bind at 1. rewrite (syncNewUsers_two u1 u2 _ w1). fold r1. fold r2.
  cbn [inSuccess inError].
  assert (Hclock : (clock w <= clock (snd r2))%Z).
  { pose proof (synchronizeUser_settingsKept u1 w1) as [_ H1].
    pose proof (synchronizeUser_settingsKept u2 (snd r1)) as [_ H2].
    fold r1 in H1, H2. fold r2 in H2. subst w1. cbn [clock] in H1. lia. }
  unfold bind at 1, call at 1.
  destruct (getUpdatedUserIDsInBilling prov (provider (snd r2))) as [rc p3].
  cbn [fst] in Hchanged. subst rc. cbn [length Nat.ltb Nat.leb].
  unfold bind, ret, readStorage, newDate, writeStorage. cbn [storage provider clock calls].
  exists (mkWorld
            (SettingStorage.saveBillingSettings (storage (snd r2))
               (withUsersWatermark (SettingStorage.getBillingSettings (storage (snd r2)))
                  (clock (snd r2))))
            p3 (clock (snd r2) + 1)
            (calls (snd r2) ++ [mkCall OpGetUpdatedUserIDsInBilling true])),
         (clock (snd r2)).
  split; [|split; [reflexivity | exact Hclock]].
  f_equal. f_equal.
  destruct (isOk (fst r1)), (isOk (fst r2)); try discriminate Hone; reflexivity.
Qed.

End UserSweepScenario.

(** The in-memory provider keeps the contract of the user sweep. *)
Lemma InMemory_contract : UserContract InMemory.ops InMemory.customersOf.
Proof.
  constructor; try reflexivity.
  - intros u p b Hb. cbn in Hb. injection Hb as <-.
    unfold InMemory.customersOf. induction (InMemory.customers p) as [|c l IH]; [reflexivity|].
    cbn [existsb map]. rewrite IH. f_equal.
    unfold InMemory.byEmail. apply String.eqb_sym.
  - intros u p. cbn. destruct (InMemory.mem (user_id u) (InMemory.rejectedUsers p)); cbn.
    + apply Permutation_refl.
    + unfold InMemory.customersOf. cbn. rewrite map_app. cbn.
      apply Permutation_sym, Permutation_cons_append.
  - intros u p. cbn. destruct (InMemory.mem (user_id u) (InMemory.rejectedUsers p)); [reflexivity|].
    destruct (find _ _); reflexivity.
  - intros p. cbn. destruct (InMemory.reachable p); reflexivity.
Qed.

(** C2 fails when the provider reports a changed customer: storage
    reports three users in error and two never synchronized, one of the two
    is synchronized and the other refused, and the provider lists one
    changed customer that no local user carries; the sweep returns
    [{inSuccess: 1, inError: 5}]. *)
Lemma synchronizeUsers_counts_changed_customers :
  let w := Scenario.userWorld ["cus_ghost"] in
  let w1 := snd (call OpCheckConnection (checkConnection InMemory.ops) w) in
  length (result (UserStorage.getUsersInError (storage w))) = 3 /\
  result (UserStorage.getUsers (storage w)) = [Scenario.bob; Scenario.dave] /\
  isOk (fst (synchronizeUser InMemory.ops Scenario.bob w1)) = true /\
  isOk (fst (synchronizeUser InMemory.ops Scenario.dave
               (snd (synchronizeUser InMemory.ops Scenario.bob w1)))) = false /\
  fst (synchronizeUsers InMemory.ops w) = inr {| inSuccess := 1; inError := 5 |} /\
  fst (synchronizeUsers InMemory.ops w) <> inr {| inSuccess := 1; inError := 4 |} /\
  usersLastSynchronizedOn (billingSettings (storage (snd (synchronizeUsers InMemory.ops w)))) =
    Some 1000%Z.
Proof. repeat split. discriminate. Qed.

Lemma synchronizeUsers_three_in_error_two_new_witness :
  exists (w' : World InMemory.State) (t : Z),
    synchronizeUsers InMemory.ops (Scenario.userWorld []) =
      (inr {| inSuccess := 1; inError := 4 |}, w') /\
    usersLastSynchronizedOn (billingSettings (storage w')) = Some t /\
    (1000 <= t)%Z.
Proof.
  apply (synchronizeUsers_three_in_error_two_new InMemory.ops (Scenario.userWorld [])
           (Scenario.userProvider []) Scenario.bob Scenario.dave); reflexivity.
Defined.

(** A sweep in which [bob] is in both loops (never synchronized, and
    reported as changed once created), then a second sweep: one customer
    for [bob] throughout. *)
Example two_sweeps_one_customer :
  let w1 := snd (synchronizeUsers InMemory.ops (Scenario.userWorld ["cus_u2"])) in
  let w2 := snd (synchronizeUsers InMemory.ops w1) in
  fst (synchronizeUsers InMemory.ops (Scenario.userWorld ["cus_u2"])) =
    inr {| inSuccess := 2; inError := 4 |} /\
  map op (calls w1) =
    [ OpCheckConnection; OpUserExists "u2"; OpCreateUser "u2";
      OpUserExists "u4"; OpCreateUser "u4";
      OpGetUpdatedUserIDsInBilling; OpGetUser "cus_u2";
      OpUserExists "u2"; OpUpdateUser "u2" ] /\
  InMemory.customersOf (provider w1) = ["bob@example.org"] /\
  InMemory.customersOf (provider w2) = ["bob@example.org"].
Proof. repeat split. Qed.

Lemma sweeps_create_no_second_customer_witness :
  let w := Scenario.userWorld ["cus_u2"] in
  let w1 := snd (synchronizeUsers InMemory.ops w) in
  let w2 := snd (synchronizeUsers InMemory.ops w1) in
  NoDup (InMemory.customersOf (provider w1)) /\ NoDup (InMemory.customersOf (provider w2)).
Proof.
  apply (proj2 (sweeps_create_no_second_customer InMemory.ops InMemory.customersOf
                  InMemory_contract) (Scenario.userWorld ["cus_u2"])).
  constructor.
Defined.

(** * Further properties *)

(** ** The guards *)

Section MoreGuardFacts.

Import Guard.

(** X1: [checkStartTransaction] returns exactly when the transaction has a user
    identifier and a user whose billing data carries a customer identifier;
    in every other case it raises the precondition error, with the message
    'User is not provided' exactly when the identifier or the user is
    missing.  It never throws anything else. *)
Theorem checkStartTransaction_allows_exactly (t : Transaction) :
  isOk (checkStartTransaction t) = negb (noUser t) && customerKnown t /\
  isBackendError (checkStartTransaction t) = negb (isOk (checkStartTransaction t)) /\
  (checkStartTransaction t = inl (BackendError "User is not provided") <-> noUser t = true).
Proof.
  unfold checkStartTransaction, noUser, customerKnown, hasCustomerID.
  destruct t as [uid u cb bd]; simpl.
  destruct (truthy uid), u as [u|]; simpl;
    try (repeat split; try reflexivity; intros; discriminate).
  destruct (billingData u) as [d|]; simpl;
    [destruct (truthy (customerID d)); simpl|];
    repeat split; try reflexivity; intros; discriminate.
Qed.


(** X3: a transaction that passed [checkStartTransaction] passes
    [checkStopTransaction] as soon as it has a charging station and billing
    data without an invoice reference. *)
Theorem start_allowed_then_stop_allowed (t : Transaction) (bd : TransactionBillingData) :
  isOk (checkStartTransaction t) = true ->
  present (tx_chargeBox t) = true ->
  tx_billingData t = Some bd ->
  truthy (invoiceID bd) = false ->
  checkStopTransaction t = inr tt.
Proof.
  intros Hstart Hcb Hbd Hinv.
  unfold checkStartTransaction in Hstart. unfold checkStopTransaction.
  destruct (negb (truthy (tx_userID t)) || negb (present (tx_user t))); [discriminate|].
  rewrite Hcb, Hbd, Hinv. simpl.
  destruct (tx_user t) as [u|]; [|discriminate].
  destruct (billingData u); [reflexivity | discriminate].
Qed.

Lemma start_allowed_then_stop_allowed_witness :
  checkStopTransaction Cases.billedSession = inr tt.
Proof.
  apply (start_allowed_then_stop_allowed Cases.billedSession {| invoiceID := None |});
    reflexivity.
Defined.

(** X4: with billing data on the transaction, [checkStopTransaction] raises the
    precondition error exactly when the user identifier or the user is
    missing, or the charging station is missing, or the billing data carries
    an invoice reference, or the user has no billing data; it returns
    otherwise, and throws nothing else. *)
Theorem checkStopTransaction_refuses_exactly (t : Transaction) :
  present (tx_billingData t) = true ->
  isBackendError (checkStopTransaction t) = stopRefused t /\
  isOk (checkStopTransaction t) = negb (stopRefused t).
Proof. intros Hbd. apply checkStopTransaction_with_billingData. exact Hbd. Qed.

Lemma checkStopTransaction_refuses_exactly_witness :
  isBackendError (checkStopTransaction Cases.billedSession) = stopRefused Cases.billedSession /\
  isOk (checkStopTransaction Cases.billedSession) = negb (stopRefused Cases.billedSession).
Proof.
  apply (checkStopTransaction_refuses_exactly Cases.billedSession). reflexivity.
Defined.

End MoreGuardFacts.

(** ** Feature toggles *)

(** X5: every feature is active but [BILLING_SYNC_USERS]: the users are
    synchronized lazily. *)
Theorem isFeatureActive_all_but_user_sync (f : FeatureToggles.Feature) :
  FeatureToggles.isFeatureActive f = true <-> f <> FeatureToggles.BILLING_SYNC_USERS.
Proof.
  destruct f; cbn; split; intros H; try reflexivity; try discriminate; try congruence.
Qed.

(** ** The sweeps as a whole *)

Section SweepFacts.

Context {P : Type} (prov : BillingProvider P).

(** X6: a failing connection check ends each of the three sweeps at once: the
    error goes to the caller, the check is the only call made, and storage
    and the clock are as they were. *)
Theorem failed_connection_aborts_every_sweep
  (w : World P) (e : error) (p1 : P) (user : option User) :
  checkConnection prov (provider w) = (inl e, p1) ->
  let w' := mkWorld (storage w) p1 (clock w) (calls w ++ [mkCall OpCheckConnection false]) in
  synchronizeUsers prov w = (inl e, w') /\
  synchronizeInvoices prov user w = (inl e, w') /\
  chargeInvoices prov w = (inl e, w').
Proof.
  intros Hc w'. subst w'.
  unfold synchronizeUsers, synchronizeInvoices, chargeInvoices.
  unfold bind at 1, call at 1. rewrite Hc.
  split; [reflexivity|].
  unfold bind at 1, call at 1. rewrite Hc.
  split; [reflexivity|].
  unfold bind at 1, call at 1. rewrite Hc. reflexivity.
Qed.

Lemma syncNewUsers_settingsKept (l : list User) :
  forall a, keeps settingsKept (syncNewUsers prov l a).
Proof.
  induction l as [|u l IH]; intros a; cbn [syncNewUsers].
  - apply keeps_ret, settingsKept_refl.
  - apply keeps_bind; [apply settingsKept_trans | | intros r].
    + apply keeps_attempt, synchronizeUser_settingsKept.
    + destruct r; apply IH.
Qed.

Lemma syncChangedUsers_settingsKept (ids : list string) :
  forall a, keeps settingsKept (syncChangedUsers prov ids a).
Proof.
  induction ids as [|id ids IH]; intros a; cbn [syncChangedUsers].
  - apply keeps_ret, settingsKept_refl.
  - apply keeps_bind; [apply settingsKept_trans | apply settingsKept_read | intros user].
    destruct user as [user|]; [|apply IH].
    apply keeps_bind; [apply settingsKept_trans | apply settingsKept_call | intros bu].
    destruct bu as [bu|].
    + apply keeps_bind; [apply settingsKept_trans | | intros r].
      * apply keeps_attempt, synchronizeUser_settingsKept.
      * destruct r; apply IH.
    + destruct (billingData user); [|apply keeps_throw, settingsKept_refl].
      apply keeps_bind; [apply settingsKept_trans | | intros _; apply IH].
      apply settingsKept_write. intros s. reflexivity.
Qed.

(** X7: the users' watermark is written exactly when [synchronizeUsers]
    returns: a sweep that throws leaves the billing settings as they were,
    a sweep that returns sets [usersLastSynchronizedOn] to a date read after
    its loops and leaves the invoices' watermark alone. *)
Theorem synchronizeUsers_watermark_iff_returns (w : World P) :
  match synchronizeUsers prov w with
  | (inl _, w') => billingSettings (storage w') = billingSettings (storage w)
  | (inr _, w') =>
      exists t, (clock w <= t)%Z /\
                billingSettings (storage w') = withUsersWatermark (billingSettings (storage w)) t
  end.
Proof.
  unfold synchronizeUsers.
  unfold bind at 1.
  pose proof (settingsKept_call OpCheckConnection (checkConnection prov) w) as [S1 C1].
  destruct (call OpCheckConnection (checkConnection prov) w) as [[e|[]] w1];
    cbn [snd] in S1, C1; [exact S1|].
  unfold bind at 1, readStorage at 1. cbv zeta.
  unfold bind at 1, readStorage at 1.
  set (a0 := {| inSuccess := 0;
                inError := length (result (UserStorage.getUsersInError (storage w1))) |}).
  set (new := UserStorage.getUsers (storage w1)).
  unfold bind at 1.
  assert (K2 : keeps settingsKept
                 (if (count new >? 0)%Z then syncNewUsers prov (result new) a0 else ret a0)).
  { destruct (count new >? 0)%Z; [apply syncNewUsers_settingsKept|].
    apply keeps_ret, settingsKept_refl. }
  specialize (K2 w1). destruct K2 as [S2 C2].
  destruct ((if (count new >? 0)%Z then syncNewUsers prov (result new) a0 else ret a0) w1)
    as [[e|a1] w2]; cbn [snd] in S2, C2; [congruence|].
  unfold bind at 1.
  pose proof (settingsKept_call OpGetUpdatedUserIDsInBilling
                (getUpdatedUserIDsInBilling prov) w2) as [S3 C3].
  destruct (call OpGetUpdatedUserIDsInBilling (getUpdatedUserIDsInBilling prov) w2)
    as [[e|ids] w3]; cbn [snd] in S3, C3; [congruence|].
  unfold bind at 1.
  assert (K4 : keeps settingsKept
                 (if (0 <? length ids)%nat then syncChangedUsers prov ids a1 else ret a1)).
  { destruct (0 <? length ids)%nat; [apply syncChangedUsers_settingsKept|].
    apply keeps_ret, settingsKept_refl. }
  specialize (K4 w3). destruct K4 as [S4 C4].
  destruct ((if (0 <? length ids)%nat then syncChangedUsers prov ids a1 else ret a1) w3)
    as [[e|a2] w4]; cbn [snd] in S4, C4; [congruence|].
  unfold bind, readStorage, newDate, writeStorage, ret. cbn [storage provider clock calls].
  exists (clock w4). split; [lia|].
  unfold SettingStorage.saveBillingSettings, SettingStorage.getBillingSettings.
  cbn [billingSettings]. congruence.
Qed.

(** X8: the invoices' watermark is written exactly when an unscoped
    [synchronizeInvoices] returns: a sweep that throws, and a sweep scoped
    to a user, leave the billing settings as they were. *)
Theorem synchronizeInvoices_watermark_iff_unscoped_returns (user : option User) (w : World P) :
  match synchronizeInvoices prov user w, user with
  | (inr _, w'), None =>
      exists t, (clock w <= t)%Z /\
                billingSettings (storage w') = withInvoicesWatermark (billingSettings (storage w)) t
  | (_, w'), _ => billingSettings (storage w') = billingSettings (storage w)
  end.
Proof.
  destruct user as [u|].
  - pose proof (scoped_sweep_settingsKept prov u w) as [S _].
    destruct (synchronizeInvoices prov (Some u) w) as [[e|a] w']; exact S.
  - unfold synchronizeInvoices.
    unfold bind at 1.
    pose proof (settingsKept_call OpCheckConnection (checkConnection prov) w) as [S1 C1].
    destruct (call OpCheckConnection (checkConnection prov) w) as [[e|[]] w1];
      cbn [snd] in S1, C1; [exact S1|].
    unfold bind at 1, ret at 1.
    unfold bind at 1.
    pose proof (settingsKept_call (OpGetUpdatedInvoiceIDsInBilling false)
                  (getUpdatedInvoiceIDsInBilling prov None) w1) as [S2 C2].
    destruct (call (OpGetUpdatedInvoiceIDsInBilling false)
                (getUpdatedInvoiceIDsInBilling prov None) w1)
      as [[e|ids] w2]; cbn [snd] in S2, C2; [congruence|].
    unfold bind at 1.
    set (loop := match ids with
                 | Some l => if (0 <? length l)%nat then syncInvoices prov None l noActions
                             else ret noActions
                 | None => ret noActions
                 end).
    assert (K3 : keeps settingsKept loop).
    { subst loop. destruct ids as [l|]; [|apply keeps_ret, settingsKept_refl].
      destruct (0 <? length l)%nat; [apply syncInvoices_settingsKept|].
      apply keeps_ret, settingsKept_refl. }
    specialize (K3 w2). destruct K3 as [S3 C3].
    destruct (loop w2) as [[e|a] w3]; cbn [snd] in S3, C3; [congruence|].
    unfold bind, readStorage, newDate, writeStorage, ret. cbn [storage provider clock calls].
    exists (clock w3). split; [lia|].
    unfold SettingStorage.saveBillingSettings, SettingStorage.getBillingSettings.
    cbn [billingSettings]. congruence.
Qed.

End SweepFacts.

(** ** The loops of the user sweep *)

Section UserLoopFacts.

Context {P : Type} (prov : BillingProvider P).


Lemma syncNewUsers_counts (l : list User) :
  forall a w, exists a' w',
    syncNewUsers prov l a w = (inr a', w') /\ total a' = total a + length l.
Proof.
  induction l as [|u l IH]; intros a w; cbn [syncNewUsers].
  - exists a, w. split; [reflexivity|]. cbn. lia.
  - unfold bind, attempt. destruct (synchronizeUser prov u w) as [[e|[]] w1].
    + destruct (IH (incError a) w1) as (a' & w' & Hrun & Hsum).
      exists a', w'. split; [exact Hrun|]. rewrite Hsum. unfold total, incError. cbn. lia.
    + destruct (IH (incSuccess a) w1) as (a' & w' & Hrun & Hsum).
      exists a', w'. split; [exact Hrun|]. rewrite Hsum. unfold total, incSuccess. cbn. lia.
Qed.

Lemma syncChangedUsers_counts (ids : list string) :
  forall a w a' w',
    syncChangedUsers prov ids a w = (inr a', w') -> total a' = total a + length ids.
Proof.
  induction ids as [|id ids IH]; intros a w a' w'; cbn [syncChangedUsers].
  - unfold ret. intros H. injection H as <- <-. cbn. lia.
  - unfold bind at 1, readStorage at 1.
    destruct (UserStorage.getUserByBillingID (storage w) id) as [user|].
    + unfold bind at 1. destruct (call (OpGetUser id) (getUser prov id) w) as [[e|bu] w1];
        [discriminate|].
      destruct bu as [bu|].
      * unfold bind at 1, attempt.
        destruct (synchronizeUser prov user w1) as [[e|[]] w2]; intros H;
          apply IH in H; rewrite H; unfold total, incError, incSuccess; cbn; lia.
      * destruct (billingData user); [|discriminate].
        unfold bind at 1, writeStorage at 1. intros H.
        apply IH in H. rewrite H. unfold total, incError. cbn. lia.
    + intros H. apply IH in H. rewrite H. unfold total, incError. cbn. lia.
Qed.

(** X10: every item of the two loops of the user sweep is counted once, in
    [inSuccess] or in [inError]: the loop over the users never synchronized
    always returns, the loop over the changed customers whenever it does
    not throw. *)
Theorem user_loops_count_every_item :
  (forall (l : list User) (a : ActionsDone) (w : World P),
     exists a' w', syncNewUsers prov l a w = (inr a', w') /\ total a' = total a + length l) /\
  (forall (ids : list string) (a a' : ActionsDone) (w w' : World P),
     syncChangedUsers prov ids a w = (inr a', w') -> total a' = total a + length ids).
Proof.
  split.
  - intros l a w. apply syncNewUsers_counts.
  - intros ids a a' w w'. apply syncChangedUsers_counts.
Qed.

(** X11: a changed customer that no local user carries costs one [inError] and
    nothing else: no provider call is made for it and storage is not
    written. *)
Theorem changed_customer_unknown_locally
  (id : string) (ids : list string) (a : ActionsDone) (w : World P) :
  UserStorage.getUserByBillingID (storage w) id = None ->
  syncChangedUsers prov (id :: ids) a w = syncChangedUsers prov ids (incError a) w.
Proof.
  intros Hnone. cbn [syncChangedUsers].
  unfold bind at 1, readStorage at 1. rewrite Hnone. reflexivity.
Qed.

Lemma found_by_billingID (s : Storage) (id : string) (u : User) :
  UserStorage.getUserByBillingID s id = Some u ->
  In u (users s) /\ exists bd, billingData u = Some bd /\ customerID bd = Some id.
Proof.
  intros Hf. apply find_some in Hf. destruct Hf as [Hin Hid]. split; [exact Hin|].
  unfold UserStorage.hasBillingID in Hid.
  destruct (billingData u) as [bd|]; [|discriminate].
  exists bd. split; [reflexivity|].
  destruct (customerID bd) as [c|]; [|discriminate].
  apply String.eqb_eq in Hid. congruence.
Qed.

(** X12: a changed customer whose local user exists but which the provider no
    longer returns: the local user is flagged [hasSynchroError] and saved,
    the item is counted in [inError], [synchronizeUser] is not called, and
    storage then reports the user among the users in billing-sync error. *)
Theorem changed_customer_gone_from_provider
  (id : string) (ids : list string) (a : ActionsDone) (w : World P) (u : User) (p1 : P) :
  UserStorage.getUserByBillingID (storage w) id = Some u ->
  getUser prov id (provider w) = (inr None, p1) ->
  exists bd,
    billingData u = Some bd /\
    let s' := UserStorage.saveUserBillingData (storage w) (user_id u) (Some (setSynchroError bd)) in
    syncChangedUsers prov (id :: ids) a w =
      syncChangedUsers prov ids (incError a)
        (mkWorld s' p1 (clock w) (calls w ++ [mkCall (OpGetUser id) true])) /\
    In (withBillingData u (Some (setSynchroError bd))) (result (UserStorage.getUsersInError s')).
Proof.
  intros Hfound Hget.
  destruct (found_by_billingID _ _ _ Hfound) as (Hin & bd & Hbd & _).
  exists bd. split; [exact Hbd|]. cbv zeta. split.
  - cbn [syncChangedUsers].
    unfold bind at 1, readStorage at 1. rewrite Hfound.
    unfold bind at 1, call at 1. rewrite Hget. rewrite Hbd. reflexivity.
  - unfold UserStorage.getUsersInError. cbn [result].
    apply filter_In. split; [|reflexivity].
    unfold UserStorage.saveUserBillingData. cbn [users].
    apply in_map_iff. exists u. rewrite String.eqb_refl. split; [reflexivity | exact Hin].
Qed.

(** X13: [getUser] is called outside the loop's [try]: when it throws for a
    changed customer whose local user exists, the loop stops there and the
    error goes to the caller; the customers after it are not looked at and
    storage is not written. *)
Theorem changed_customer_lookup_throws
  (id : string) (ids : list string) (a : ActionsDone) (w : World P) (u : User)
  (e : error) (p1 : P) :
  UserStorage.getUserByBillingID (storage w) id = Some u ->
  getUser prov id (provider w) = (inl e, p1) ->
  syncChangedUsers prov (id :: ids) a w =
    (inl e, mkWorld (storage w) p1 (clock w) (calls w ++ [mkCall (OpGetUser id) false])).
Proof.
  intros Hfound Hget. cbn [syncChangedUsers].
  unfold bind at 1, readStorage at 1. rewrite Hfound.
  unfold bind at 1, call at 1. rewrite Hget. reflexivity.
Qed.

End UserLoopFacts.

(** ** The loop of the invoice sweep *)

Section InvoiceLoopFacts.

Context {P : Type} (prov : BillingProvider P).

Lemma syncInvoices_turn (user : option User) (id : string) (ids : list string)
  (a : ActionsDone) (w : World P) :
  syncInvoices prov user (id :: ids) a w =
  match processInvoice prov user id w with
  | (inr (true, user'), w1) => syncInvoices prov user' ids (incSuccess a) w1
  | (inr (false, user'), w1) => syncInvoices prov user' ids (incError a) w1
  | (inl _, w1) => syncInvoices prov user ids (incError a) w1
  end.
Proof.
  cbn [syncInvoices]. unfold bind, attempt.
  destruct (processInvoice prov user id w) as [[e|[[|] u']] w1]; reflexivity.
Qed.

(** X14: the loop of the invoice sweep always returns, and counts every
    identifier once, in [inSuccess] or in [inError]. *)
Theorem syncInvoices_counts_every_item (ids : list string) :
  forall (user : option User) (a : ActionsDone) (w : World P),
  exists a' w',
    syncInvoices prov user ids a w = (inr a', w') /\ total a' = total a + length ids.
Proof.
  induction ids as [|id ids IH]; intros user a w.
  - exists a, w. split; [reflexivity|]. cbn. lia.
  - rewrite syncInvoices_turn.
    destruct (processInvoice prov user id w) as [[e|[[|] u']] w1].
    + destruct (IH user (incError a) w1) as (a' & w' & Hrun & Hsum).
      exists a', w'. split; [exact Hrun|]. rewrite Hsum. unfold total, incError. cbn. lia.
    + destruct (IH u' (incSuccess a) w1) as (a' & w' & Hrun & Hsum).
      exists a', w'. split; [exact Hrun|]. rewrite Hsum. unfold total, incSuccess. cbn. lia.
    + destruct (IH u' (incError a) w1) as (a' & w' & Hrun & Hsum).
      exists a', w'. split; [exact Hrun|]. rewrite Hsum. unfold total, incError. cbn. lia.
Qed.

(** X15: when [getInvoice] throws, the turn's [catch] counts the identifier in
    [inError] and the loop goes on with the next one; storage is not
    written. *)
Theorem invoice_lookup_throws
  (user : option User) (id : string) (ids : list string) (a : ActionsDone)
  (w : World P) (e : error) (p1 : P) :
  getInvoice prov id (provider w) = (inl e, p1) ->
  syncInvoices prov user (id :: ids) a w =
    syncInvoices prov user ids (incError a)
      (mkWorld (storage w) p1 (clock w) (calls w ++ [mkCall (OpGetInvoice id) false])).
Proof.
  intros Hget. rewrite syncInvoices_turn.
  unfold processInvoice. unfold bind at 1, call at 1. rewrite Hget. reflexivity.
Qed.

(** X16: in an unscoped sweep, a provider invoice whose customer identifier no
    local user carries is counted in [inError]: nothing is saved, not even
    when a local record of the invoice exists, and no document is asked
    for. *)
Theorem invoice_owner_unknown
  (id : string) (ids : list string) (a : ActionsDone)
  (w : World P) (inv : BillingInvoice) (p1 : P) :
  getInvoice prov id (provider w) = (inr (Some inv), p1) ->
  UserStorage.getUserByBillingID (storage w) (inv_customerID inv) = None ->
  syncInvoices prov None (id :: ids) a w =
    syncInvoices prov None ids (incError a)
      (mkWorld (storage w) p1 (clock w) (calls w ++ [mkCall (OpGetInvoice id) true])).
Proof.
  intros Hget Hnone. rewrite syncInvoices_turn.
  unfold processInvoice. unfold bind at 1, call at 1. rewrite Hget.
  unfold bind at 1, readStorage at 1. cbn [storage].
  cbv beta iota zeta.
  unfold bind at 1, readStorage at 1. cbn [storage].
  replace (inv_customerID
             match BillingStorage.getInvoiceByBillingInvoiceID (storage w) id with
             | Some i => carryID inv (inv_id i)
             | None => inv
             end) with (inv_customerID inv)
    by (destruct (BillingStorage.getInvoiceByBillingInvoiceID (storage w) id); reflexivity).
  rewrite Hnone. reflexivity.
Qed.

Lemma saveInvoice_id (s : Storage) (j : BillingInvoice) (n : N) :
  inv_id j = Some n -> fst (BillingStorage.saveInvoice s j) = n.
Proof. unfold BillingStorage.saveInvoice. intros ->. reflexivity. Qed.

Lemma saveInvoice_documents (s : Storage) (j : BillingInvoice) :
  invoiceDocuments (snd (BillingStorage.saveInvoice s j)) = invoiceDocuments s.
Proof. unfold BillingStorage.saveInvoice. destruct (inv_id j); reflexivity. Qed.

(** X17: a download that returns a document: the document is saved, the invoice
    is saved again with [downloadable] set, and the item is counted in
    [inSuccess]. *)
Theorem download_succeeds
  (user : option User) (id : string) (ids : list string) (a : ActionsDone)
  (w : World P) (p1 p2 : P) (inv : BillingInvoice) (owner : User)
  (d : BillingInvoiceDocument) :
  getInvoice prov id (provider w) = (inr (Some inv), p1) ->
  ownerOf user (storage w) inv = Some owner ->
  (forall u, user = Some u -> hasCustomerID (billingData u) = true) ->
  let prior := BillingStorage.getInvoiceByBillingInvoiceID (storage w) id in
  redownload prior inv = true ->
  let saved := BillingStorage.saveInvoice (storage w) (upserted prior inv owner) in
  let i := carryID (upserted prior inv owner) (Some (fst saved)) in
  downloadInvoiceDocument prov i p1 = (inr (Some d), p2) ->
  exists user' w',
    syncInvoices prov user (id :: ids) a w = syncInvoices prov user' ids (incSuccess a) w' /\
    In d (invoiceDocuments (storage w')) /\
    In (setDownloadable i true) (invoices (storage w')).
Proof.
  intros Hget Hown Hscoped prior Hre saved i Hdl.
  pose proof (owner_has_billingData user (storage w) inv owner Hown Hscoped) as Hbd.
  rewrite syncInvoices_turn.
  rewrite (processInvoice_upsert prov user id w p1 inv owner Hget Hown).
  fold prior. cbv zeta. fold saved. fold i. rewrite Hre, Hdl.
  destruct (billingData owner) as [bd|]; [|discriminate].
  do 2 eexists. split; [reflexivity|]. cbn [storage UserStorage.saveUserBillingData
                                              invoiceDocuments invoices].
  split.
  - rewrite saveInvoice_documents. cbn. apply in_or_app. right. left. reflexivity.
  - pose proof (saveInvoice_stores (BillingStorage.saveInvoiceDocument (snd saved) d)
                  (setDownloadable i true)) as Hin.
    rewrite (saveInvoice_id _ (setDownloadable i true) (fst saved)) in Hin by reflexivity.
    rewrite (carryID_own (setDownloadable i true) (fst saved)) in Hin by reflexivity.
    exact Hin.
Qed.

End InvoiceLoopFacts.

Section UpsertFacts.

Context {P : Type} (prov : BillingProvider P).

Lemma saveInvoice_length (s : Storage) (j : BillingInvoice) :
  length (invoices (snd (BillingStorage.saveInvoice s j))) =
  length (invoices s) +
  match inv_id j with
  | Some n => if existsb (BillingStorage.hasID n) (invoices s) then 0 else 1
  | None => 1
  end.
Proof.
  unfold BillingStorage.saveInvoice. destruct (inv_id j) as [n|]; cbn [snd invoices].
  - destruct (existsb (BillingStorage.hasID n) (invoices s)).
    + rewrite length_map. lia.
    + rewrite length_app. reflexivity.
  - rewrite length_app. reflexivity.
Qed.

Lemma saveInvoice_then_known (s : Storage) (j : BillingInvoice) :
  existsb (BillingStorage.hasID (fst (BillingStorage.saveInvoice s j)))
          (invoices (snd (BillingStorage.saveInvoice s j))) = true.
Proof.
  apply existsb_exists. eexists. split; [apply saveInvoice_stores|].
  unfold BillingStorage.hasID. cbn. apply N.eqb_refl.
Qed.

Lemma stamp_keeps_invoices (owner : User) (user : option User) (w2 : World P) :
  invoices (storage (snd (match billingData owner with
              | None => (inl (TypeError "Cannot set properties of undefined (setting 'invoicesLastSynchronizedOn')"), w2)
              | Some bd =>
                  (inr (true, match user with
                              | Some _ => Some (withBillingData owner (Some (stampInvoiceSync bd (clock w2))))
                              | None => None
                              end),
                   mkWorld (UserStorage.saveUserBillingData (storage w2) (user_id owner)
                              (Some (stampInvoiceSync bd (clock w2))))
                           (provider w2) (clock w2 + 1) (calls w2))
              end : Res (bool * option User) * World P))) = invoices (storage w2).
Proof. destruct (billingData owner); reflexivity. Qed.

(** X18: the upsert is keyed: a turn that finds the provider's invoice and its
    owner leaves one more local record when there was none under that
    provider key, and the same number of records when there was one,
    whatever the download does.  The provider's invoice carries no local
    identifier of its own, and the prior record has one. *)
Theorem upsert_adds_at_most_one_record
  (user : option User) (id : string) (w : World P) (p1 : P)
  (inv : BillingInvoice) (owner : User) :
  getInvoice prov id (provider w) = (inr (Some inv), p1) ->
  ownerOf user (storage w) inv = Some owner ->
  inv_id inv = None ->
  let prior := BillingStorage.getInvoiceByBillingInvoiceID (storage w) id in
  (forall i, prior = Some i -> present (inv_id i) = true) ->
  length (invoices (storage (snd (processInvoice prov user id w)))) =
  length (invoices (storage w)) + (if present prior then 0 else 1).
Proof.
  intros Hget Hown Hnew prior Hprior.
  rewrite (processInvoice_upsert prov user id w p1 inv owner Hget Hown).
  fold prior. cbv zeta.
  set (j := upserted prior inv owner).
  assert (Hfirst : length (invoices (snd (BillingStorage.saveInvoice (storage w) j))) =
                   length (invoices (storage w)) + (if present prior then 0 else 1)).
  { rewrite saveInvoice_length. f_equal. subst j. unfold upserted.
    destruct prior as [i|] eqn:Hp; cbn.
    - specialize (Hprior i eq_refl). destruct (inv_id i) as [n|] eqn:Hn; [|discriminate].
      assert (Hex : existsb (BillingStorage.hasID n) (invoices (storage w)) = true).
      { apply existsb_exists. exists i. subst prior.
        unfold BillingStorage.getInvoiceByBillingInvoiceID in Hp.
        apply find_some in Hp. split; [apply Hp|].
        unfold BillingStorage.hasID. rewrite Hn. apply N.eqb_refl. }
      rewrite Hex. reflexivity.
    - rewrite Hnew. reflexivity. }
  destruct (redownload prior inv).
  - destruct (downloadInvoiceDocument prov _ p1) as [[e|[d|]] p2].
    + exact Hfirst.
    + rewrite stamp_keeps_invoices. cbn [storage].
      rewrite saveInvoice_length. cbn [inv_id setDownloadable carryID].
      change (invoices (BillingStorage.saveInvoiceDocument
                          (snd (BillingStorage.saveInvoice (storage w) j)) d))
        with (invoices (snd (BillingStorage.saveInvoice (storage w) j))).
      rewrite saveInvoice_then_known, Hfirst. lia.
    + rewrite stamp_keeps_invoices. exact Hfirst.
  - rewrite stamp_keeps_invoices. exact Hfirst.
Qed.

(** X19: [checkAndGetBillingUser], once the lookup by e-mail address has
    answered: it returns the provider's customer exactly when the identity
    checks pass, and then the two customer identifiers are equal; otherwise
    it raises the precondition error.  The lookup is its only call. *)
Theorem checkAndGetBillingUser_accepts_exactly
  (u : User) (w : World P) (bu : option BillingUser) (p1 : P) :
  getUserByEmail prov (email u) (provider w) = (inr bu, p1) ->
  let r := checkAndGetBillingUser prov u w in
  snd r = mkWorld (storage w) p1 (clock w) (calls w ++ [mkCall (OpGetUserByEmail (email u)) true]) /\
  isOk (fst r) = negb (identityMismatch u bu) /\
  isBackendError (fst r) = identityMismatch u bu /\
  (forall b, fst r = inr b ->
     bu = Some b /\ customerIDOf (billingData u) = customerIDOf (bu_billingData b) /\
     truthy (customerIDOf (billingData u)) = true).
Proof.
  intros Hget r. subst r.
  destruct (checkAndGetBillingUser prov u w) as [r w'] eqn:Hrun. cbn [fst snd].
  unfold checkAndGetBillingUser in Hrun.
  unfold bind at 1, call at 1 in Hrun. rewrite Hget in Hrun. cbn [isOk] in Hrun.
  unfold identityMismatch, hasCustomerID in *.
  destruct bu as [b|];
    [|injection Hrun as <- <-; repeat split; intros; discriminate].
  destruct (bu_billingData b) as [pbd|] eqn:Hp; cbn [negb orb] in *;
    [|injection Hrun as <- <-; repeat split; intros; discriminate].
  destruct (truthy (customerID pbd)) eqn:Tp; cbn [negb orb] in *;
    [|injection Hrun as <- <-; repeat split; intros; discriminate].
  destruct (billingData u) as [bd|] eqn:Hu; cbn [negb orb] in *;
    [|injection Hrun as <- <-; repeat split; intros; discriminate].
  destruct (truthy (customerID bd)) eqn:Tu; cbn [negb orb] in *;
    [|injection Hrun as <- <-; repeat split; intros; discriminate].
  cbn [customerIDOf] in *.
  destruct (sameCustomerID (customerID bd) (customerID pbd)) eqn:Hs; cbn [negb] in *;
    [|injection Hrun as <- <-; repeat split; intros; discriminate].
  injection Hrun as <- <-. repeat split;
    match goal with H : inr _ = inr _ |- _ => injection H as <- end;
    try reflexivity.
  - rewrite Hp. cbn.
    unfold sameCustomerID in Hs.
    destruct (customerID bd) as [x|], (customerID pbd) as [y|]; try discriminate.
    apply String.eqb_eq in Hs. congruence.
  - exact Tu.
Qed.

End UpsertFacts.

(** ** The forced synchronization of one user *)

Section ForceFacts.

Context {P : Type} (prov : BillingProvider P).

(** X20: [forceSynchronizeUser] looks the customer up by e-mail address and then
    writes to the provider at most once: it creates a customer when the
    lookup finds none, updates it when the local user has no billing data,
    and makes no further call when both sides have one.  It never asks
    [userExists]. *)
Theorem forceSynchronizeUser_provider_calls
  (u : User) (w : World P) (bu : option BillingUser) (p1 : P) :
  getUserByEmail prov (email u) (provider w) = (inr bu, p1) ->
  exists cs,
    calls (snd (forceSynchronizeUser prov u w)) =
      calls w ++ mkCall (OpGetUserByEmail (email u)) true :: cs /\
    map op cs = match bu, billingData u with
                | None, _ => [OpCreateUser (user_id u)]
                | Some _, None => [OpUpdateUser (user_id u)]
                | Some _, Some _ => []
                end.
Proof.
  intros Hget. unfold forceSynchronizeUser.
  unfold bind at 1, call at 1. rewrite Hget. cbn [isOk].
  unfold bind at 1.
  destruct bu as [b|].
  - destruct (billingData u) as [bd|].
    + destruct (bu_billingData b) as [pbd|]; cbn; exists []; split; reflexivity.
    + unfold bind at 1, call at 1. cbn [provider storage clock calls].
      destruct (updateUser prov u p1) as [[e|nu] p2]; cbn;
        rewrite <- app_assoc; eexists; split; reflexivity.
  - unfold bind at 1, call at 1. cbn [provider storage clock calls].
    destruct (createUser prov u p1) as [[e|nu] p2]; cbn;
      rewrite <- app_assoc; eexists; split; reflexivity.
Qed.

(** X21: a [forceSynchronizeUser] that throws has written nothing to storage;
    one that returns has saved, under the user's identifier, the billing
    data it left on the user object, and has changed nothing else of that
    object. *)
Theorem forceSynchronizeUser_saves_what_it_sets (u : User) (w : World P) :
  match forceSynchronizeUser prov u w with
  | (inl _, w') => storage w' = storage w
  | (inr u', w') =>
      storage w' = UserStorage.saveUserBillingData (storage w) (user_id u) (billingData u') /\
      u' = withBillingData u (billingData u')
  end.
Proof.
  unfold forceSynchronizeUser.
  unfold bind at 1, call at 1.
  destruct (getUserByEmail prov (email u) (provider w)) as [[e|bu] p1]; [reflexivity|].
  unfold bind at 1.
  destruct bu as [b|].
  - destruct (billingData u) as [bd|].
    + destruct (bu_billingData b) as [pbd|]; cbn; [split|]; reflexivity.
    + unfold bind at 1, call at 1. cbn [provider storage clock calls].
      destruct (updateUser prov u p1) as [[e|nu] p2]; cbn; [|split]; reflexivity.
  - unfold bind at 1, call at 1. cbn [provider storage clock calls].
    destruct (createUser prov u p1) as [[e|nu] p2]; cbn; [|split]; reflexivity.
Qed.

(** X22: when both sides have billing data, [forceSynchronizeUser] takes the
    provider's customer identifier, clears the error flag, keeps the date of
    the last invoice synchronization, and saves; the user then passes the
    identity checks of a scoped invoice sweep against that customer, as soon
    as the provider's identifier is not empty. *)
Theorem forceSynchronizeUser_repairs_identity
  (u : User) (w : World P) (b : BillingUser) (p1 : P)
  (bd fromProvider : BillingUserData) :
  getUserByEmail prov (email u) (provider w) = (inr (Some b), p1) ->
  billingData u = Some bd ->
  bu_billingData b = Some fromProvider ->
  let u' := withBillingData u (Some (overrideCustomerID bd fromProvider)) in
  forceSynchronizeUser prov u w =
    (inr u', mkWorld (UserStorage.saveUserBillingData (storage w) (user_id u) (billingData u'))
                     p1 (clock w) (calls w ++ [mkCall (OpGetUserByEmail (email u)) true])) /\
  identityMismatch u' (Some b) = negb (truthy (customerID fromProvider)).
Proof.
  intros Hget Hbd Hp u'. subst u'. split.
  - unfold forceSynchronizeUser.
    unfold bind at 1, call at 1. rewrite Hget. cbn [isOk].
    unfold bind at 1. rewrite Hbd, Hp. reflexivity.
  - unfold identityMismatch, hasCustomerID. rewrite Hp. cbn.
    destruct (customerID fromProvider) as [c|]; cbn; [|reflexivity].
    rewrite String.eqb_refl. destruct (negb (c =? ""))%string; reflexivity.
Qed.

(** X23: when the provider's customer has no billing data and the local user has
    some, [forceSynchronizeUser] throws a [TypeError] and saves nothing. *)
Theorem forceSynchronizeUser_customer_without_billingData
  (u : User) (w : World P) (b : BillingUser) (p1 : P) :
  getUserByEmail prov (email u) (provider w) = (inr (Some b), p1) ->
  present (billingData u) = true ->
  bu_billingData b = None ->
  isTypeError (fst (forceSynchronizeUser prov u w)) = true /\
  storage (snd (forceSynchronizeUser prov u w)) = storage w.
Proof.
  intros Hget Hbd Hp.
  destruct (forceSynchronizeUser prov u w) as [r w'] eqn:Hrun.
  unfold forceSynchronizeUser in Hrun.
  unfold bind at 1, call at 1 in Hrun. rewrite Hget in Hrun. cbn [isOk] in Hrun.
  unfold bind at 1 in Hrun. rewrite Hp in Hrun.
  destruct (billingData u); [|discriminate].
  cbn in Hrun. injection Hrun as <- <-. split; reflexivity.
Qed.

End ForceFacts.

Section ForceContract.

Context {P : Type} (prov : BillingProvider P) (customersOf : P -> list string).
Hypothesis contract : UserContract prov customersOf.
Hypothesis lookup : LookupContract prov customersOf.

(** X24: against a provider that answers the lookup by e-mail address by the
    customers it holds, [forceSynchronizeUser] leaves no correlating key
    with a second customer. *)
Theorem forceSynchronizeUser_no_second_customer (u : User) (w : World P) :
  NoDup (customersOf (provider w)) ->
  NoDup (customersOf (provider (snd (forceSynchronizeUser prov u w)))).
Proof.
  intros Hnd. unfold forceSynchronizeUser.
  unfold bind at 1, call at 1.
  pose proof (lookup_answer prov customersOf lookup (email u) (provider w)) as Hans.
  pose proof (lookup_keeps prov customersOf lookup (email u) (provider w)) as Hkeep.
  destruct (getUserByEmail prov (email u) (provider w)) as [[e|bu] p1];
    cbn [fst snd isOk provider] in *.
  - rewrite Hkeep. exact Hnd.
  - specialize (Hans bu eq_refl).
    unfold bind at 1. destruct bu as [b|]; cbn [present] in Hans.
    + destruct (billingData u) as [bd|].
      * destruct (bu_billingData b); cbn; rewrite Hkeep; exact Hnd.
      * unfold bind at 1, call at 1. cbn [provider storage clock calls].
        pose proof (update_keeps prov customersOf contract u p1) as Hup.
        destruct (updateUser prov u p1) as [[e|nu] p2]; cbn in *;
          rewrite Hup, Hkeep; exact Hnd.
    + unfold bind at 1, call at 1. cbn [provider storage clock calls].
      pose proof (create_adds prov customersOf contract u p1) as Hcr.
      destruct (createUser prov u p1) as [[e|nu] p2]; cbn in *.
      * apply (Permutation_NoDup (Permutation_sym Hcr)). rewrite Hkeep. exact Hnd.
      * apply (Permutation_NoDup (Permutation_sym Hcr)). rewrite Hkeep.
        constructor; [|exact Hnd].
        apply existsb_eqb_In. symmetry. exact Hans.
Qed.

End ForceContract.

(** ** Runs *)

Lemma failed_connection_aborts_every_sweep_witness :
  let w' := mkWorld (storage Cases.offlineWorld) (provider Cases.offlineWorld) 1000
              [mkCall OpCheckConnection false] in
  synchronizeUsers InMemory.ops Cases.offlineWorld = (inl (ProviderError "Connection failed"), w') /\
  synchronizeInvoices InMemory.ops None Cases.offlineWorld =
    (inl (ProviderError "Connection failed"), w') /\
  chargeInvoices InMemory.ops Cases.offlineWorld = (inl (ProviderError "Connection failed"), w').
Proof.
  apply (failed_connection_aborts_every_sweep InMemory.ops Cases.offlineWorld
           (ProviderError "Connection failed") (provider Cases.offlineWorld) None).
  reflexivity.
Defined.

Lemma user_loops_count_every_item_witness :
  total {| inSuccess := 0; inError := 2 |} = total noActions + length ["cus_ghost"; "cus_u3"].
Proof.
  apply (proj2 (user_loops_count_every_item InMemory.ops) ["cus_ghost"; "cus_u3"]
           noActions {| inSuccess := 0; inError := 2 |}
           (Scenario.userWorld ["cus_ghost"; "cus_u3"])
           (snd (syncChangedUsers InMemory.ops ["cus_ghost"; "cus_u3"] noActions
                   (Scenario.userWorld ["cus_ghost"; "cus_u3"])))).
  reflexivity.
Defined.

Lemma changed_customer_unknown_locally_witness :
  syncChangedUsers InMemory.ops ["cus_ghost"] noActions (Scenario.userWorld ["cus_ghost"]) =
    (inr {| inSuccess := 0; inError := 1 |}, Scenario.userWorld ["cus_ghost"]).
Proof.
  apply (changed_customer_unknown_locally InMemory.ops "cus_ghost" [] noActions
           (Scenario.userWorld ["cus_ghost"])).
  reflexivity.
Defined.

Lemma changed_customer_gone_from_provider_witness :
  exists bd,
    billingData Scenario.erin = Some bd /\
    let s' := UserStorage.saveUserBillingData Scenario.userStorage "u3" (Some (setSynchroError bd)) in
    syncChangedUsers InMemory.ops ["cus_u3"] noActions (Scenario.userWorld ["cus_u3"]) =
      syncChangedUsers InMemory.ops [] (incError noActions)
        (mkWorld s' (Scenario.userProvider ["cus_u3"]) 1000 [mkCall (OpGetUser "cus_u3") true]) /\
    In (withBillingData Scenario.erin (Some (setSynchroError bd)))
       (result (UserStorage.getUsersInError s')).
Proof.
  apply (changed_customer_gone_from_provider InMemory.ops "cus_u3" [] noActions
           (Scenario.userWorld ["cus_u3"]) Scenario.erin (Scenario.userProvider ["cus_u3"]));
    reflexivity.
Defined.

Lemma changed_customer_lookup_throws_witness :
  syncChangedUsers Flaky.ops ["cus_u3"; "cus_u6"] noActions Cases.outageUserWorld =
    (inl (ProviderError "Service unavailable"),
     mkWorld Scenario.userStorage (provider Cases.outageUserWorld) 1000
             [mkCall (OpGetUser "cus_u3") false]).
Proof.
  apply (changed_customer_lookup_throws Flaky.ops "cus_u3" ["cus_u6"] noActions
           Cases.outageUserWorld Scenario.erin); reflexivity.
Defined.

(** The whole sweep over the same outage: it throws, and the users'
    watermark stays where it was. *)
Example synchronizeUsers_aborted_by_lookup :
  fst (synchronizeUsers Flaky.ops Cases.outageUserWorld) =
    inl (ProviderError "Service unavailable") /\
  billingSettings (storage (snd (synchronizeUsers Flaky.ops Cases.outageUserWorld))) =
    billingSettings Scenario.userStorage.
Proof. split; reflexivity. Qed.

Lemma invoice_lookup_throws_witness :
  syncInvoices Flaky.ops None ["in_1"] noActions Cases.outageInvoiceWorld =
    (inr {| inSuccess := 0; inError := 1 |},
     mkWorld Scenario.invoiceStorage (provider Cases.outageInvoiceWorld) 1000
             [mkCall (OpGetInvoice "in_1") false]).
Proof.
  apply (invoice_lookup_throws Flaky.ops None "in_1" [] noActions Cases.outageInvoiceWorld
           (ProviderError "Service unavailable") (provider Cases.outageInvoiceWorld)).
  reflexivity.
Defined.

Lemma invoice_owner_unknown_witness :
  syncInvoices InMemory.ops None ["in_2"] noActions Cases.orphanWorld =
    (inr {| inSuccess := 0; inError := 1 |},
     mkWorld (storage Cases.orphanWorld) (provider Cases.orphanWorld) 1000
             [mkCall (OpGetInvoice "in_2") true]).
Proof.
  apply (invoice_owner_unknown InMemory.ops "in_2" [] noActions Cases.orphanWorld
           (Scenario.fromProvider "in_2" 2) (provider Cases.orphanWorld)); reflexivity.
Defined.

Lemma download_succeeds_witness :
  exists user' w',
    syncInvoices InMemory.ops None ["in_1"] noActions (Scenario.invoiceWorld ["in_1"]) =
      syncInvoices InMemory.ops user' [] (incSuccess noActions) w' /\
    In {| doc_invoiceID := Some 9%N; doc_content := "%PDF in_1" |} (invoiceDocuments (storage w')) /\
    In (setDownloadable
          (carryID (upserted None (Scenario.fromProvider "in_1" 3) Scenario.alice) (Some 9%N)) true)
       (invoices (storage w')).
Proof.
  assert (Hs : forall u, @None User = Some u -> hasCustomerID (billingData u) = true)
    by (intros u Hu; discriminate Hu).
  apply (download_succeeds InMemory.ops None "in_1" [] noActions
           (Scenario.invoiceWorld ["in_1"]) (Scenario.invoiceProvider ["in_1"])
           (Scenario.invoiceProvider ["in_1"])
           (Scenario.fromProvider "in_1" 3) Scenario.alice
           {| doc_invoiceID := Some 9%N; doc_content := "%PDF in_1" |}
           eq_refl eq_refl Hs eq_refl eq_refl).
Defined.

Lemma upsert_adds_at_most_one_record_witness :
  length (invoices (storage (snd (processInvoice InMemory.ops None "in_1"
                                    (Scenario.invoiceWorld ["in_1"]))))) = 3 /\
  length (invoices (storage (snd (processInvoice InMemory.ops None "in_2"
                                    (Scenario.invoiceWorld ["in_2"]))))) = 2.
Proof.
  split.
  - apply (upsert_adds_at_most_one_record InMemory.ops None "in_1"
             (Scenario.invoiceWorld ["in_1"]) (Scenario.invoiceProvider ["in_1"])
             (Scenario.fromProvider "in_1" 3) Scenario.alice); try reflexivity.
    intros i Hi. discriminate Hi.
  - apply (upsert_adds_at_most_one_record InMemory.ops None "in_2"
             (Scenario.invoiceWorld ["in_2"]) (Scenario.invoiceProvider ["in_2"])
             (Scenario.fromProvider "in_2" 2) Scenario.alice); try reflexivity.
    intros i Hi. injection Hi as <-. reflexivity.
Defined.

Lemma checkAndGetBillingUser_accepts_exactly_witness :
  let r := checkAndGetBillingUser InMemory.ops Scenario.alice (Scenario.invoiceWorld []) in
  isOk (fst r) = true /\ isBackendError (fst r) = false.
Proof.
  pose proof (checkAndGetBillingUser_accepts_exactly InMemory.ops Scenario.alice
                (Scenario.invoiceWorld [])
                (Some {| bu_email := "alice@example.org";
                         bu_billingData := Scenario.synced "cus_u1" |})
                (Scenario.invoiceProvider []) eq_refl) as H.
  cbv zeta in H. destruct H as (_ & H1 & H2 & _).
  split; [exact H1 | exact H2].
Defined.

Lemma forceSynchronizeUser_provider_calls_witness :
  exists cs,
    calls (snd (forceSynchronizeUser InMemory.ops Scenario.bob (Scenario.userWorld []))) =
      [] ++ mkCall (OpGetUserByEmail "bob@example.org") true :: cs /\
    map op cs = [OpCreateUser "u2"].
Proof.
  apply (forceSynchronizeUser_provider_calls InMemory.ops Scenario.bob (Scenario.userWorld [])
           None (Scenario.userProvider [])).
  reflexivity.
Defined.

Lemma forceSynchronizeUser_repairs_identity_witness :
  let u' := withBillingData Scenario.stranger
              (Some {| customerID := Some "cus_u1"; hasSynchroError := false;
                       invoicesLastSynchronizedOn := None |}) in
  fst (forceSynchronizeUser InMemory.ops Scenario.stranger (Scenario.invoiceWorld [])) = inr u' /\
  identityMismatch Scenario.stranger
    (Some {| bu_email := "alice@example.org"; bu_billingData := Scenario.synced "cus_u1" |}) = true /\
  identityMismatch u'
    (Some {| bu_email := "alice@example.org"; bu_billingData := Scenario.synced "cus_u1" |}) = false.
Proof.
  pose proof (forceSynchronizeUser_repairs_identity InMemory.ops Scenario.stranger
                (Scenario.invoiceWorld [])
                {| bu_email := "alice@example.org"; bu_billingData := Scenario.synced "cus_u1" |}
                (Scenario.invoiceProvider [])
                {| customerID := Some "cus_u9"; hasSynchroError := false;
                   invoicesLastSynchronizedOn := None |}
                {| customerID := Some "cus_u1"; hasSynchroError := false;
                   invoicesLastSynchronizedOn := None |}
                eq_refl eq_refl eq_refl) as H.
  cbv zeta in H. destruct H as [Hrun Hid].
  cbv zeta. split; [rewrite Hrun; reflexivity|]. split; [reflexivity | exact Hid].
Defined.

Lemma forceSynchronizeUser_customer_without_billingData_witness :
  isTypeError (fst (forceSynchronizeUser InMemory.ops Scenario.alice Cases.bareCustomerWorld)) = true /\
  storage (snd (forceSynchronizeUser InMemory.ops Scenario.alice Cases.bareCustomerWorld)) =
    Scenario.invoiceStorage.
Proof.
  apply (forceSynchronizeUser_customer_without_billingData InMemory.ops Scenario.alice
           Cases.bareCustomerWorld Cases.bareCustomer (provider Cases.bareCustomerWorld));
    reflexivity.
Defined.

(** The in-memory provider answers the lookup by the customers it holds. *)
Lemma InMemory_lookup : LookupContract InMemory.ops InMemory.customersOf.
Proof.
  constructor; [|reflexivity].
  intros mail p o Ho. cbn in Ho. injection Ho as <-.
  unfold InMemory.customersOf. induction (InMemory.customers p) as [|c l IH]; [reflexivity|].
  cbn [find existsb map]. unfold InMemory.byEmail at 1.
  rewrite (String.eqb_sym mail (bu_email c)).
  destruct (bu_email c =? mail)%string; [reflexivity | exact IH].
Qed.

Lemma forceSynchronizeUser_no_second_customer_witness :
  NoDup (InMemory.customersOf
           (provider (snd (forceSynchronizeUser InMemory.ops Scenario.alice
                             (Scenario.invoiceWorld []))))).
Proof.
  apply (forceSynchronizeUser_no_second_customer InMemory.ops InMemory.customersOf
           InMemory_contract InMemory_lookup Scenario.alice (Scenario.invoiceWorld [])).
  repeat constructor. intros [].
Defined.

Section StampFacts.

Context {P : Type} (prov : BillingProvider P).

Lemma saveInvoice_users (s : Storage) (j : BillingInvoice) :
  users (snd (BillingStorage.saveInvoice s j)) = users s.
Proof. unfold BillingStorage.saveInvoice. destruct (inv_id j); reflexivity. Qed.

(** X25: a turn that ends in [inSuccess] after an upsert stamps the owner: the
    billing data saved for the owner is the billing data of the owner object
    of the turn (the scoped user's own copy in a scoped sweep) with
    [invoicesLastSynchronizedOn] set to the date read, one reading of the
    clock is made, and a scoped user object carries the stamp into the next
    turn. *)
Theorem successful_turn_stamps_owner
  (user : option User) (id : string) (w w' : World P) (p1 : P)
  (inv : BillingInvoice) (owner : User) (bd : BillingUserData) (user' : option User) :
  getInvoice prov id (provider w) = (inr (Some inv), p1) ->
  ownerOf user (storage w) inv = Some owner ->
  billingData owner = Some bd ->
  processInvoice prov user id w = (inr (true, user'), w') ->
  users (storage w') =
    users (UserStorage.saveUserBillingData (storage w) (user_id owner)
             (Some (stampInvoiceSync bd (clock w)))) /\
  clock w' = (clock w + 1)%Z /\
  user' = match user with
          | Some _ => Some (withBillingData owner (Some (stampInvoiceSync bd (clock w))))
          | None => None
          end.
Proof.
  intros Hget Hown Hbd Hrun.
  rewrite (processInvoice_upsert prov user id w p1 inv owner Hget Hown) in Hrun.
  cbv zeta in Hrun. rewrite Hbd in Hrun.
  destruct (redownload _ inv).
  - destruct (downloadInvoiceDocument prov _ p1) as [[e|[d|]] p2]; [discriminate| |];
      cbn [storage clock provider calls] in Hrun; injection Hrun as <- <-;
      cbn [storage clock UserStorage.saveUserBillingData users];
      rewrite ?saveInvoice_users; cbn [BillingStorage.saveInvoiceDocument users];
      rewrite ?saveInvoice_users; repeat split.
  - cbn [storage clock provider calls] in Hrun. injection Hrun as <- <-.
    cbn [storage clock UserStorage.saveUserBillingData users].
    rewrite saveInvoice_users. repeat split.
Qed.

End StampFacts.

Lemma successful_turn_stamps_owner_witness :
  users (storage (snd (processInvoice InMemory.ops (Some Scenario.alice) "in_2"
                         (Scenario.invoiceWorld ["in_2"])))) =
    [ withBillingData Scenario.alice
        (Some {| customerID := Some "cus_u1"; hasSynchroError := false;
                 invoicesLastSynchronizedOn := Some 1000%Z |}) ] /\
  clock (snd (processInvoice InMemory.ops (Some Scenario.alice) "in_2"
                (Scenario.invoiceWorld ["in_2"]))) = 1001%Z.
Proof.
  pose proof (successful_turn_stamps_owner InMemory.ops (Some Scenario.alice) "in_2"
                (Scenario.invoiceWorld ["in_2"])
                (snd (processInvoice InMemory.ops (Some Scenario.alice) "in_2"
                        (Scenario.invoiceWorld ["in_2"])))
                (Scenario.invoiceProvider ["in_2"])
                (Scenario.fromProvider "in_2" 2) Scenario.alice
                {| customerID := Some "cus_u1"; hasSynchroError := false;
                   invoicesLastSynchronizedOn := None |}
                (Some (withBillingData Scenario.alice
                         (Some {| customerID := Some "cus_u1"; hasSynchroError := false;
                                  invoicesLastSynchronizedOn := Some 1000%Z |})))
                eq_refl eq_refl eq_refl eq_refl) as H.
  destruct H as (Husers & Hclock & _).
  split; [rewrite Husers; reflexivity | exact Hclock].
Defined.
